(** * The staged message-handoff pipeline

    service1 (HTTP ingress) -> service-queue-step1 -> service2 ->
    service-queue-step2 -> service3.

    The three Go programs are embedded as functions of a state-and-trace
    monad.  The state is the part of the outside world the programs act on
    (clock, SQS queues, identifier generators); the trace is the
    chronological list of the calls a function makes to its collaborators
    (statsd, logrus, the tracer, SQS, the HTTP response writer).  The
    libraries the programs call but do not define (encoding/json, time
    parsing and formatting, the Datadog tracer, uuid) are fields of a
    [Runtime] record, so every statement below holds for any behaviour of
    those libraries unless it says otherwise. *)

From Stdlib Require Import ZArith Lia Ascii.
From stdpp Require Import base gmap strings list option pretty.

Local Open Scope Z_scope.

(** ** Data model *)

(** The anonymous [Pipeline] struct of [PipelineMessage].  Go's [int] is a
    64-bit integer; the programs only store the literals 1 and 2 in
    [CurrentStep] and never do arithmetic on it, so no wrap-around occurs. *)
Record PipelineInfo := {
  StartTime : string;
  Step1Complete : string;
  Step2Complete : string;
  CurrentStep : Z;
}.

Record PipelineMessage := {
  CorrelationID : string;
  Data : string;
  Pipeline : PipelineInfo;
  ErrorType : string;
}.

#[global] Instance PipelineInfo_eq_dec : EqDecision PipelineInfo.
Proof. solve_decision. Defined.
#[global] Instance PipelineMessage_eq_dec : EqDecision PipelineMessage.
Proof. solve_decision. Defined.

(** The zero value of the struct, as [var message PipelineMessage] or a
    composite literal leaves the fields it does not mention. *)
Definition zeroPipeline : PipelineInfo :=
  {| StartTime := ""; Step1Complete := ""; Step2Complete := ""; CurrentStep := 0 |}.

(** Field assignments [message.F = v]. *)
Definition set_Data (v : string) (m : PipelineMessage) : PipelineMessage :=
  {| CorrelationID := CorrelationID m; Data := v; Pipeline := Pipeline m;
     ErrorType := ErrorType m |}.
Definition set_ErrorType (v : string) (m : PipelineMessage) : PipelineMessage :=
  {| CorrelationID := CorrelationID m; Data := Data m; Pipeline := Pipeline m;
     ErrorType := v |}.
Definition set_Pipeline (f : PipelineInfo → PipelineInfo) (m : PipelineMessage)
  : PipelineMessage :=
  {| CorrelationID := CorrelationID m; Data := Data m; Pipeline := f (Pipeline m);
     ErrorType := ErrorType m |}.
Definition set_StartTime (v : string) (p : PipelineInfo) : PipelineInfo :=
  {| StartTime := v; Step1Complete := Step1Complete p;
     Step2Complete := Step2Complete p; CurrentStep := CurrentStep p |}.
Definition set_Step1Complete (v : string) (p : PipelineInfo) : PipelineInfo :=
  {| StartTime := StartTime p; Step1Complete := v;
     Step2Complete := Step2Complete p; CurrentStep := CurrentStep p |}.
Definition set_Step2Complete (v : string) (p : PipelineInfo) : PipelineInfo :=
  {| StartTime := StartTime p; Step1Complete := Step1Complete p;
     Step2Complete := v; CurrentStep := CurrentStep p |}.
Definition set_CurrentStep (v : Z) (p : PipelineInfo) : PipelineInfo :=
  {| StartTime := StartTime p; Step1Complete := Step1Complete p;
     Step2Complete := Step2Complete p; CurrentStep := v |}.

(** A span context: what [tracer.Extract] returns and [span.Context()]
    yields. *)
Record SpanContext := { trace_id : nat; span_id : nat }.

#[global] Instance SpanContext_eq_dec : EqDecision SpanContext.
Proof. solve_decision. Defined.

(** [types.Message] of the SQS SDK.  [MessageId] is a nullable pointer in
    Go (see [getMessageID]); an attribute value whose [StringValue] is nil
    is [None]. *)
Record Message := {
  MessageId : option string;
  ReceiptHandle : string;
  Body : string;
  MessageAttributes : gmap string (option string);
}.

(** The HTTP request as far as [sendMessageHandler] reads it:
    [r.Header.Get] returns the empty string for an absent header;
    [ReqSpan] is the span the tracing mux left in [r.Context()]. *)
Record Request := {
  Method : string;
  XCorrelationID : string;
  XInjectError : string;
  ReqSpan : option SpanContext;
}.

(** Durations and instants are integers, in nanoseconds. *)
Definition Millisecond : Z := 1000000.
Definition Second : Z := 1000 * Millisecond.

(** ** Collaborators *)

(** Library functions the programs call.  [json_Unmarshal] and
    [json_Marshal] return [None] where Go returns a non-nil error;
    [tracer_Extract] likewise; [tracer_Inject] returns the entries it wrote
    into the carrier and whether it returned an error. *)
Record Runtime := {
  shardID : string;
  servicePort : string;
  json_Unmarshal : string → option PipelineMessage;
  json_Marshal : PipelineMessage → option string;
  time_Parse : string → option Z;
  time_Format : Z → string;
  tracer_Extract : gmap string string → option SpanContext;
  tracer_Inject : SpanContext → gmap string string * bool;
  uuid_String : nat → string;
}.

Inductive Level := Debug | Info | Warn | Error.

(** One call to a collaborator.  Span tags ([span.SetTag]) and
    [span.Finish] only decorate spans and are not recorded. *)
Inductive event :=
  | Incr (name : string) (tags : list string)
  | Timing (name : string) (d : Z) (tags : list string)
  | LogEntry (lvl : Level) (text : string) (fields : list (string * string))
  | Sleep (d : Z)
  | SpanStart (op : string) (parent : option SpanContext) (ctx : SpanContext)
  | SqsReceive (queue : string) (result : option (list Message))
  | SqsSend (queue : string) (body : string) (attrs : gmap string string) (ok : bool)
  | SqsDelete (queue : string) (handle : string) (ok : bool)
  | HttpReply (status : Z) (fields : list (string * string)).

(** The world a process runs in.  [drift] is the time that passes before
    each reading of the clock and [faults] says which of the coming SQS
    calls fail (both are consumed from the head; once exhausted no time
    passes and no call fails).  [visible] holds the messages a queue can
    deliver, [inflight] those it has delivered and that were not deleted
    yet. *)
Record World := {
  clock : Z;
  drift : list Z;
  uuids : nat;
  span_ids : nat;
  sqs_ids : nat;
  faults : list bool;
  visible : gmap string (list Message);
  inflight : gmap string (list Message);
}.

Definition set_clock (c : Z) (d : list Z) (w : World) : World :=
  {| clock := c; drift := d; uuids := uuids w; span_ids := span_ids w;
     sqs_ids := sqs_ids w; faults := faults w; visible := visible w;
     inflight := inflight w |}.
Definition set_uuids (n : nat) (w : World) : World :=
  {| clock := clock w; drift := drift w; uuids := n; span_ids := span_ids w;
     sqs_ids := sqs_ids w; faults := faults w; visible := visible w;
     inflight := inflight w |}.
Definition set_span_ids (n : nat) (w : World) : World :=
  {| clock := clock w; drift := drift w; uuids := uuids w; span_ids := n;
     sqs_ids := sqs_ids w; faults := faults w; visible := visible w;
     inflight := inflight w |}.
Definition set_sqs (n : nat) (f : list bool)
    (v i : gmap string (list Message)) (w : World) : World :=
  {| clock := clock w; drift := drift w; uuids := uuids w;
     span_ids := span_ids w; sqs_ids := n; faults := f; visible := v;
     inflight := i |}.

(** ** The monad: state passing over [World], with the trace written out *)

Definition M (A : Type) : Type := World → A * World * list event.

#[global] Instance M_ret : MRet M := λ A a w, (a, w, []).
#[global] Instance M_bind : MBind M := λ A B f m w,
  let '(a, w1, t1) := m w in
  let '(b, w2, t2) := f a w1 in
  (b, w2, t1 ++ t2).

Definition emit (e : event) : M unit := λ w, (tt, w, [e]).

(** [if c { body }] for a body without result. *)
Definition when (c : bool) (body : M unit) : M unit :=
  if c then body else mret tt.

(** [for _, x := range xs { f x }], keeping what each call reports. *)
Fixpoint forRange {A B} (f : A → M B) (xs : list A) : M (list B) :=
  match xs with
  | [] => mret []
  | x :: xs' => b ← f x; bs ← forRange f xs'; mret (b :: bs)
  end.

(** ** Primitive operations *)

(** [time.Now()]: some time passes, then the clock is read. *)
Definition time_Now : M Z := λ w,
  let c := clock w + hd 0 (drift w) in
  (c, set_clock c (tl (drift w)) w, []).

(** [time.Duration] is a 64-bit count of nanoseconds: [t.Sub(u)] is the
    difference where it fits and the largest or the smallest duration
    where it does not.  [time.Since(t)] is [time.Now().Sub(t)]. *)
Definition maxDuration : Z := 9223372036854775807.
Definition minDuration : Z := -9223372036854775808.

Definition time_Sub (t u : Z) : Z := Z.max minDuration (Z.min maxDuration (t - u)).

Definition time_Since (t : Z) : M Z := now ← time_Now; mret (time_Sub now t).

Definition time_Sleep (d : Z) : M unit := λ w,
  (tt, set_clock (clock w + d) (drift w) w, [Sleep d]).

Definition statsd_Incr (name : string) (tags : list string) : M unit :=
  emit (Incr name tags).
Definition statsd_Timing (name : string) (d : Z) (tags : list string) : M unit :=
  emit (Timing name d tags).

(** [log.WithFields(fields).<Level>(text)].  The [error] field that
    [WithError] adds is left out: the text of error values is not part of
    the model. *)
Definition log_ (lvl : Level) (text : string) (fields : list (string * string))
  : M unit := emit (LogEntry lvl text fields).

(** Starting a span draws a fresh span id; a root span also opens a new
    trace, a child stays in the trace of its parent.  A span is represented
    by its context. *)
Definition tracer_StartSpan (op : string) (parent : option SpanContext)
  : M SpanContext := λ w,
  let n := span_ids w in
  let ctx := match parent with
             | Some p => {| trace_id := trace_id p; span_id := n |}
             | None => {| trace_id := n; span_id := n |}
             end in
  (ctx, set_span_ids (S n) w, [SpanStart op parent ctx]).

(** *** SQS

    Every call first consults [faults].  A call that fails changes
    nothing in the queues.  The result [true] stands for [err != nil]. *)

Definition sqs_SendMessage (queue body : string) (attrs : gmap string string)
  : M bool := λ w,
  if hd false (faults w) then
    (true, set_sqs (sqs_ids w) (tl (faults w)) (visible w) (inflight w) w,
     [SqsSend queue body attrs false])
  else
    let n := sqs_ids w in
    let msg := {| MessageId := Some (pretty n);
                  ReceiptHandle := "rh-" +:+ pretty n;
                  Body := body;
                  MessageAttributes := Some <$> attrs |} in
    (false,
     set_sqs (S n) (tl (faults w))
       (<[queue := visible w !!! queue ++ [msg]]> (visible w)) (inflight w) w,
     [SqsSend queue body attrs true]).

(** [ReceiveMessage] with [MaxNumberOfMessages: 1]: [None] is an error,
    [Some []] an empty poll.  A delivered message moves to [inflight]. *)
Definition sqs_ReceiveMessage (queue : string) : M (option (list Message)) := λ w,
  if hd false (faults w) then
    (None, set_sqs (sqs_ids w) (tl (faults w)) (visible w) (inflight w) w,
     [SqsReceive queue None])
  else
    match visible w !!! queue with
    | [] =>
      (Some [], set_sqs (sqs_ids w) (tl (faults w)) (visible w) (inflight w) w,
       [SqsReceive queue (Some [])])
    | msg :: rest =>
      (Some [msg],
       set_sqs (sqs_ids w) (tl (faults w))
         (<[queue := rest]> (visible w))
         (<[queue := inflight w !!! queue ++ [msg]]> (inflight w)) w,
       [SqsReceive queue (Some [msg])])
    end.

Definition sqs_DeleteMessage (queue handle : string) : M bool := λ w,
  if hd false (faults w) then
    (true, set_sqs (sqs_ids w) (tl (faults w)) (visible w) (inflight w) w,
     [SqsDelete queue handle false])
  else
    (false,
     set_sqs (sqs_ids w) (tl (faults w)) (visible w)
       (<[queue := filter (λ m, ReceiptHandle m ≠ handle) (inflight w !!! queue)]>
          (inflight w)) w,
     [SqsDelete queue handle true]).

(** The transport's own move: the visibility timeout of a queue expires
    and what was delivered but not deleted becomes deliverable again. *)
Definition redeliver (queue : string) (w : World) : World :=
  set_sqs (sqs_ids w) (faults w)
    (<[queue := visible w !!! queue ++ inflight w !!! queue]> (visible w))
    (<[queue := []]> (inflight w)) w.

(** How a call of a stage function ended: the [return] statement it left
    through, with the values of its local variables [correlationID] and
    [message] at that point.  The Go functions return nothing; this value
    only names the path taken. *)
Inductive outcome :=
  | Rejected
  | Malformed
  | ShortCircuited (correlationID : string) (message : PipelineMessage)
  | MarshalFailed (correlationID : string) (message : PipelineMessage)
  | SendFailed (correlationID : string) (message : PipelineMessage)
  | Completed (correlationID : string) (message : PipelineMessage).

(** ** Start-up

    What [init] and [main] read from their environment and how the calls
    they make turn out, the calls themselves, and the ways [main] ends.
    [listenReturns] says that [http.ListenAndServe] comes back (it only
    does so with an error) instead of serving for ever. *)
Record Boot := {
  SHARD_ID : string;
  SERVICE2_PORT : string;
  logFileOpens : bool;
  logFileCloses : bool;
  statsdStarts : bool;
  statsdCloses : bool;
  awsConfigLoads : bool;
  listenReturns : bool;
}.

(** [Fatal] is [log.Fatal] ([None] for a message that is the error
    itself).  [Consume] is the [go] statement that starts the consumer
    loop.  Printed text is given without its final newline. *)
Inductive bootEvent :=
  | TracerStart (service : string) (globalTags : list (string * string))
  | TracerStop
  | LogToFile (name : string)
  | LogFileClose
  | BootLog (lvl : Level) (text : string)
  | Fatal (text : option string)
  | StatsdOpen
  | StatsdClose
  | SqsClient
  | Consume
  | Stdout (text : string)
  | Listen (addr : string).

Inductive ending := Exit1 | Panicked | Serves | Returned.

(** [main] runs with a stack of deferred calls, last registered first.
    A statement either goes on with a value or ends the process. *)
Definition Proc (A : Type) : Type :=
  list (list bootEvent) → (A + ending) * list (list bootEvent) * list bootEvent.

#[global] Instance Proc_ret : MRet Proc := λ A a d, (inl a, d, []).
#[global] Instance Proc_bind : MBind Proc := λ A B f m d,
  match m d with
  | (inl a, d1, t1) => let '(r, d2, t2) := f a d1 in (r, d2, t1 ++ t2)
  | (inr e, d1, t1) => (inr e, d1, t1)
  end.

Definition call (e : bootEvent) : Proc unit := λ d, (inl tt, d, [e]).

(** [defer func() { body }()]. *)
Definition defer (body : list bootEvent) : Proc unit := λ d, (inl tt, body :: d, []).

(** [log.Fatal]: the entry is written and [os.Exit(1)] ends the process
    on the spot. *)
Definition log_Fatal (text : option string) : Proc unit := λ d,
  (inr Exit1, d, [Fatal text]).

Definition panic : Proc unit := λ d, (inr Panicked, d, []).

Definition http_ListenAndServe (b : Boot) (addr : string) : Proc unit := λ d,
  (if listenReturns b then inl tt else inr Serves, d, [Listen addr]).

(** A whole run of [main]: the deferred calls run when [main] returns
    and when it panics; they do not run when the process exits, nor
    while it serves. *)
Definition run (main : Proc unit) : list bootEvent * ending :=
  let '(r, d, t) := main [] in
  match r with
  | inl _ => (t ++ concat d, Returned)
  | inr Panicked => (t ++ concat d, Panicked)
  | inr e => (t, e)
  end.

Section Shared.
Variable rt : Runtime.

Definition uuid_New : M string := λ w,
  (uuid_String rt (uuids w), set_uuids (S (uuids w)) w, []).

(** [correlationID := x; if correlationID == "" { correlationID =
    uuid.New().String() }], the same in every handler. *)
Definition orNewUUID (x : string) : M string :=
  if bool_decide (x = "") then uuid_New else mret x.

(** The carrier read from the message attributes, and the span opened
    from it (the block "Extract span context and create child span" of
    services 2 and 3, whose log fields differ only in [fields]). *)
Definition carrierOf (msg : Message) : gmap string string :=
  omap id (MessageAttributes msg).

Definition receiveSpan (msg : Message) (fields : list (string * string))
  : M SpanContext :=
  match tracer_Extract rt (carrierOf msg) with
  | None =>
    span ← tracer_StartSpan "sqs.receive" None;
    log_ Debug "Failed to extract trace context, starting new span" fields;;
    mret span
  | Some spanCtx => tracer_StartSpan "sqs.receive" (Some spanCtx)
  end.

(** "Convert carrier to SQS message attributes": the [correlation-id]
    entry is written first and the carrier's entries are stored over
    it. *)
Definition messageAttrs (correlationID : string) (carrier : gmap string string)
  : gmap string string :=
  carrier ∪ {["correlation-id" := correlationID]}.
End Shared.

(** ** service2 (shard/service2/main.go) *)

Module Service2.

Definition inputQueueURL : string :=
  "https://sqs.us-east-1.amazonaws.com/025775160945/service-queue-step1".
Definition outputQueueURL : string :=
  "https://sqs.us-east-1.amazonaws.com/025775160945/service-queue-step2".

Definition getMessageID (msg : Message) : string :=
  match MessageId msg with
  | Some id => id
  | None => "unknown"
  end.

Section WithRuntime.
Variable rt : Runtime.

(** "Update message for step3". *)
Definition updateForStep3 (now : Z) (message : PipelineMessage)
  : PipelineMessage :=
  set_Pipeline (set_CurrentStep 2)
    (set_Pipeline (set_Step2Complete (time_Format rt now))
       (set_Data ("Processed by service2: " +:+ Data message) message)).

Definition processStep2Message (msg : Message) : M outcome :=
  step2Start ← time_Now;
  match json_Unmarshal rt (Body msg) with
  | None =>
    log_ Error "Failed to unmarshal pipeline message, skipping"
      [("service", "service2"); ("operation", "json_unmarshal");
       ("shard", shardID rt); ("message.id", getMessageID msg);
       ("queue.url", inputQueueURL)];;
    statsd_Incr "business.pipeline.errors.json.unmarshal" ["service:service2"];;
    (* Delete malformed message to prevent infinite reprocessing *)
    delErr ← sqs_DeleteMessage inputQueueURL (ReceiptHandle msg);
    when delErr (log_ Error "Failed to delete malformed message" []);;
    mret Malformed
  | Some message =>
    correlationID ← orNewUUID rt (CorrelationID message);
    span ← receiveSpan rt msg
      [("correlation.id", correlationID); ("service", "service2");
       ("shard", shardID rt); ("operation", "trace_extract")];
    (* Calculate step1 to step2 duration *)
    match time_Parse rt (Step1Complete (Pipeline message)) with
    | Some step1Time =>
      statsd_Timing "business.pipeline.step1_to_step2.duration"
        (time_Sub step2Start step1Time) ["service:service2"]
    | None => mret tt
    end;;
    (* Check for errors from step1 or inject new errors *)
    let processingFailed := bool_decide (ErrorType message = "invalid_data") in
    if processingFailed then
      statsd_Incr "business.pipeline.errors.step2"
        ["service:service2"; "type:inherited"];;
      log_ Error
        "Step2 processing failed - inherited error from step1, message will not be forwarded to step3"
        [("dd.trace_id", pretty (trace_id span));
         ("correlation.id", correlationID); ("service", "service2");
         ("shard", shardID rt); ("pipeline.step", "2");
         ("error.type", ErrorType message); ("error.source", "step1");
         ("message.data", Data message);
         ("action", "skipping_step2_processing")];;
      (* Delete message from queue to prevent reprocessing *)
      err ← sqs_DeleteMessage inputQueueURL (ReceiptHandle msg);
      when err (log_ Error "Failed to delete failed message from step1 queue"
                  [("correlation.id", correlationID)]);;
      statsd_Incr "sli.processing.total"
        ["service:service2"; "operation:message_processing"];;
      statsd_Incr "sli.processing.error"
        ["service:service2"; "operation:message_processing";
         "error_type:inherited_error"];;
      statsd_Incr "business.pipeline.failed.step2" ["service:service2"];;
      mret (ShortCircuited correlationID message)
    else
      (* Step2 processing simulation *)
      time_Sleep (30 * Millisecond);;
      step2Duration ← time_Since step2Start;
      (* Update message for step3 *)
      now ← time_Now;
      let message := updateForStep3 now message in
      statsd_Incr "sli.processing.total"
        ["service:service2"; "operation:message_processing"];;
      statsd_Incr "sli.processing.success"
        ["service:service2"; "operation:message_processing"];;
      when (step2Duration <=? 50 * Millisecond)
        (statsd_Incr "sli.latency.under_50ms" ["service:service2"]);;
      statsd_Timing "sli.processing_time" step2Duration
        ["service:service2"; "operation:message_processing"];;
      statsd_Timing "business.pipeline.step2.duration" step2Duration
        ["service:service2"];;
      statsd_Incr "business.pipeline.messages.step2" ["service:service2"];;
      statsd_Timing "sli.pipeline.duration" step2Duration
        ["service:service2"; "shard:" +:+ shardID rt; "step:2"];;
      (* Send to step3 queue with proper trace propagation *)
      sqsSendSpan ← tracer_StartSpan "sqs.send" (Some span);
      (* Inject trace context for Service3 *)
      let '(carrierOut, injectErr) := tracer_Inject rt sqsSendSpan in
      when injectErr
        (log_ Debug "Failed to inject trace context, continuing without tracing"
           [("correlation.id", correlationID); ("service", "service2");
            ("shard", shardID rt); ("operation", "trace_inject")]);;
      let msgAttrs := messageAttrs correlationID carrierOut in
      (* Marshal message body *)
      match json_Marshal rt message with
      | None =>
        log_ Error "Failed to marshal message for step3"
          [("dd.trace_id", pretty (trace_id span));
           ("correlation.id", correlationID); ("service", "service2");
           ("shard", shardID rt); ("pipeline.step", "2");
           ("operation", "json_marshal")];;
        mret (MarshalFailed correlationID message)
      | Some msgBody =>
        (* Send message to step3 queue *)
        err ← sqs_SendMessage outputQueueURL msgBody msgAttrs;
        if (err : bool) then
          log_ Error "Failed to send message to step3 queue"
            [("dd.trace_id", pretty (trace_id span));
             ("correlation.id", correlationID); ("service", "service2");
             ("shard", shardID rt); ("pipeline.step", "2");
             ("operation", "sqs_send"); ("queue.url", outputQueueURL)];;
          statsd_Incr "sli.processing.total"
            ["service:service2"; "operation:message_processing"];;
          statsd_Incr "sli.processing.error"
            ["service:service2"; "operation:message_processing";
             "error_type:sqs_send_failure"];;
          statsd_Incr "business.pipeline.errors.sqs.send" ["service:service2"];;
          mret (SendFailed correlationID message)
        else
          (* Delete from step1 queue *)
          err ← sqs_DeleteMessage inputQueueURL (ReceiptHandle msg);
          when err
            (log_ Error "Failed to delete processed message from step1 queue"
               [("correlation.id", correlationID)]);;
          log_ Info "Step2 completed, message sent to step3"
            [("dd.trace_id", pretty (trace_id span));
             ("correlation.id", correlationID); ("service", "service2");
             ("shard", shardID rt); ("pipeline.step", "2");
             ("step2_duration", pretty (step2Duration `quot` Millisecond))];;
          mret (Completed correlationID message)
      end
  end.

(** One pass through the body of the [for] loop of
    [consumeFromStep1]. *)
Definition pollStep1 : M (list outcome) :=
  result ← sqs_ReceiveMessage inputQueueURL;
  match (result : option (list Message)) with
  | None =>
    log_ Error "Failed to receive messages from SQS, retrying..."
      [("service", "service2"); ("operation", "sqs_receive");
       ("shard", shardID rt); ("queue.url", inputQueueURL)];;
    statsd_Incr "business.pipeline.errors.sqs.receive" ["service:service2"];;
    (* Brief pause before retry to avoid tight loop *)
    time_Sleep (5 * Second);;
    mret []
  | Some messages => forRange processStep2Message messages
  end.

(** [for { ... }] unrolled [fuel] times: the loop has no [break] and
    no [return], so it only stops here when the fuel is spent. *)
Fixpoint consumeFromStep1 (fuel : nat) : M (list outcome) :=
  match fuel with
  | O => mret []
  | S fuel' =>
    os ← pollStep1; os' ← consumeFromStep1 fuel'; mret (os ++ os')
  end.

(** [homeHandler], the health endpoint. *)
Definition homeHandler (r : Request) : M unit :=
  span ← tracer_StartSpan "http.request" (ReqSpan r);
  correlationID ← orNewUUID rt (XCorrelationID r);
  (* SLI Metrics for health endpoint *)
  statsd_Incr "sli.requests.total"
    ["service:service2"; "shard:" +:+ shardID rt;
     "port:" +:+ servicePort rt; "endpoint:/"];;
  statsd_Incr "sli.requests.success"
    ["service:service2"; "shard:" +:+ shardID rt;
     "port:" +:+ servicePort rt; "endpoint:/"];;
  emit (HttpReply 200
          [("message", "Service2 - Pipeline Step2 Processor");
           ("correlation_id", correlationID); ("service", "service2")]).
End WithRuntime.

(** [init]: the shard id and the port, from the environment
    ([os.Getenv] gives the empty string for a variable that is not
    set). *)
Definition init (b : Boot) : string * string :=
  let shardID := SHARD_ID b in
  let shardID := if bool_decide (shardID = "") then "shard-default" else shardID in
  let servicePort := SERVICE2_PORT b in
  let servicePort := if bool_decide (servicePort = "") then "8081" else servicePort in
  (shardID, servicePort).

Definition logFileName (shardID : string) : string :=
  "service2-" +:+ shardID +:+ ".log".

(** [main]. *)
Definition main (b : Boot) : list bootEvent * ending :=
  let '(shardID, servicePort) := init b in
  run (
    call (TracerStart "service2" [("shard", shardID); ("port", servicePort)]);;
    defer [TracerStop];;
    (if logFileOpens b then
       (* Use defer for proper resource cleanup *)
       defer (LogFileClose
              :: if logFileCloses b then []
                 else [BootLog Error "Failed to close log file"]);;
       call (LogToFile (logFileName shardID))
     else call (BootLog Warn "Failed to open log file, using stdout"));;
    (if statsdStarts b then call StatsdOpen
     else log_Fatal (Some "Failed to initialize StatsD client"));;
    (* Use defer for proper resource cleanup *)
    defer (StatsdClose
           :: if statsdCloses b then []
              else [BootLog Error "Failed to close StatsD client"]);;
    (if awsConfigLoads b then mret tt
     else log_Fatal (Some "Failed to load AWS configuration"));;
    call SqsClient;;
    call Consume;;
    call (Stdout ("Service2 running on :" +:+ servicePort
                  +:+ " (shard: " +:+ shardID +:+ ")"));;
    call (BootLog Info "Service2 started");;
    http_ListenAndServe b (":" +:+ servicePort)).
End Service2.

(** ** service3 (service3/main.go) *)

Module Service3.

Definition queueURL : string :=
  "https://sqs.us-east-1.amazonaws.com/025775160945/service-queue-step2".

Section WithRuntime.
Variable rt : Runtime.

Definition processStep3Message (msg : Message) : M outcome :=
  step3Start ← time_Now;
  match json_Unmarshal rt (Body msg) with
  | None =>
    log_ Error "Failed to unmarshal pipeline message, skipping"
      [("service", "service3"); ("operation", "json_unmarshal");
       ("queue.url", queueURL)];;
    mret Malformed
  | Some message =>
    correlationID ← orNewUUID rt (CorrelationID message);
    span ← receiveSpan rt msg
      [("correlation.id", correlationID); ("service", "service3");
       ("operation", "trace_extract")];
    (* Calculate step2 to step3 duration *)
    match time_Parse rt (Step2Complete (Pipeline message)) with
    | Some step2Time =>
      statsd_Timing "business.pipeline.step2_to_step3.duration"
        (time_Sub step3Start step2Time) ["service:service3"]
    | None => mret tt
    end;;
    (* Step3 processing simulation *)
    time_Sleep (40 * Millisecond);;
    step3Duration ← time_Since step3Start;
    (* Calculate end-to-end pipeline duration *)
    match time_Parse rt (StartTime (Pipeline message)) with
    | Some startTime =>
      endToEndDuration ← time_Since startTime;
      statsd_Timing "business.pipeline.end_to_end.duration" endToEndDuration
        ["service:service3"];;
      (* Calculate individual step durations from timestamps *)
      match time_Parse rt (Step1Complete (Pipeline message)) with
      | Some step1Time =>
        statsd_Timing "business.pipeline.step1.calculated_duration"
          (time_Sub step1Time startTime) ["service:service3"];;
        match time_Parse rt (Step2Complete (Pipeline message)) with
        | Some step2Time =>
          statsd_Timing "business.pipeline.step2.calculated_duration"
            (time_Sub step2Time step1Time) ["service:service3"]
        | None => mret tt
        end
      | None => mret tt
      end
    | None => mret tt
    end;;
    (* SLI Metrics for SLO tracking *)
    statsd_Incr "sli.processing.total"
      ["service:service3"; "operation:final_processing"];;
    statsd_Incr "sli.processing.success"
      ["service:service3"; "operation:final_processing"];;
    when (step3Duration <=? 60 * Millisecond)
      (statsd_Incr "sli.latency.under_60ms" ["service:service3"]);;
    statsd_Timing "sli.processing_time" step3Duration
      ["service:service3"; "operation:final_processing"];;
    (* End-to-end SLI metrics *)
    match time_Parse rt (StartTime (Pipeline message)) with
    | Some startTime =>
      endToEndDuration ← time_Since startTime;
      statsd_Incr "sli.pipeline.total" ["pipeline:multi_service"];;
      statsd_Incr "sli.pipeline.success" ["pipeline:multi_service"];;
      when (endToEndDuration <=? 300 * Millisecond)
        (statsd_Incr "sli.pipeline.under_300ms" ["pipeline:multi_service"]);;
      when (endToEndDuration <=? 1 * Second)
        (statsd_Incr "sli.pipeline.under_1s" ["pipeline:multi_service"]);;
      statsd_Timing "sli.pipeline.duration" endToEndDuration
        ["pipeline:multi_service"]
    | None => mret tt
    end;;
    (* Business Metrics *)
    statsd_Timing "business.pipeline.step3.duration" step3Duration
      ["service:service3"];;
    statsd_Incr "business.pipeline.messages.step3" ["service:service3"];;
    statsd_Incr "business.pipeline.completed" ["service:service3"];;
    (* Delete message from queue; the result is dropped *)
    sqs_DeleteMessage queueURL (ReceiptHandle msg);;
    log_ Info "Pipeline completed - Step3 finished"
      [("dd.trace_id", pretty (trace_id span));
       ("correlation.id", correlationID); ("service", "service3");
       ("pipeline.step", "3");
       ("step3_duration", pretty (step3Duration `quot` Millisecond));
       ("pipeline_complete", "true"); ("message.data", Data message);
       ("error.type", ErrorType message);
       ("pipeline.start", StartTime (Pipeline message));
       ("pipeline.step1", Step1Complete (Pipeline message));
       ("pipeline.step2", Step2Complete (Pipeline message))];;
    mret (Completed correlationID message)
  end.

(** One pass through the body of the [for] loop of
    [consumeFromStep2]. *)
Definition pollStep2 : M (list outcome) :=
  result ← sqs_ReceiveMessage queueURL;
  match (result : option (list Message)) with
  | None => mret []
  | Some messages => forRange processStep3Message messages
  end.

Fixpoint consumeFromStep2 (fuel : nat) : M (list outcome) :=
  match fuel with
  | O => mret []
  | S fuel' =>
    os ← pollStep2; os' ← consumeFromStep2 fuel'; mret (os ++ os')
  end.

(** [homeHandler], the health endpoint. *)
Definition homeHandler (r : Request) : M unit :=
  span ← tracer_StartSpan "http.request" (ReqSpan r);
  correlationID ← orNewUUID rt (XCorrelationID r);
  (* SLI Metrics for health endpoint *)
  statsd_Incr "sli.requests.total" ["service:service3"; "endpoint:/"];;
  statsd_Incr "sli.requests.success" ["service:service3"; "endpoint:/"];;
  emit (HttpReply 200
          [("message", "Service3 - Pipeline Final Step");
           ("correlation_id", correlationID); ("service", "service3")]).
End WithRuntime.

(** [main].  Here the deferred calls drop the result of [Close], and
    a failure to load the AWS configuration is a [panic]. *)
Definition main (b : Boot) : list bootEvent * ending :=
  run (
    call (TracerStart "service3" []);;
    defer [TracerStop];;
    (if logFileOpens b then
       defer [LogFileClose];;
       call (LogToFile "service3.log")
     else call (BootLog Warn "Failed to open log file, using stdout"));;
    (if statsdStarts b then call StatsdOpen else log_Fatal None);;
    defer [StatsdClose];;
    (if awsConfigLoads b then mret tt else panic);;
    call SqsClient;;
    call Consume;;
    call (BootLog Info "Service3 running on :8082");;
    http_ListenAndServe b ":8082").
End Service3.

(** ** service1 (service1/main.go) *)

Module Service1.

Definition queueURL : string :=
  "https://sqs.us-east-1.amazonaws.com/025775160945/service-queue-step1".

(** The two errors [sendToService2] returns.  Both are built by
    [fmt.Errorf] with [%w], so [fmt.Sprintf("%T", err)] prints the same
    dynamic type for both. *)
Inductive sendError := MarshalError | SqsError.

Definition typeName (err : sendError) : string := "*fmt.wrapError".

Section WithRuntime.
Variable rt : Runtime.

Definition sendToService2 (parentSpan : SpanContext)
    (message : PipelineMessage) (correlationID : string)
  : M (option sendError) :=
  sendSpan ← tracer_StartSpan "pipeline.step1.send_to_service2" (Some parentSpan);
  sqsSpan ← tracer_StartSpan "sqs.send_message.service_queue_step1" (Some sendSpan);
  (* Inject trace context using Datadog TextMap carrier *)
  let '(carrier, injectErr) := tracer_Inject rt sqsSpan in
  when injectErr
    (log_ Warn "Failed to inject trace context, continuing without tracing"
       [("correlation.id", correlationID); ("service", "service1");
        ("operation", "trace_inject")]);;
  let msgAttrs := messageAttrs correlationID carrier in
  (* Marshal message body *)
  match json_Marshal rt message with
  | None => mret (Some MarshalError)
  | Some msgBody =>
    (* Send message to SQS *)
    err ← sqs_SendMessage queueURL msgBody msgAttrs;
    if (err : bool) then mret (Some SqsError) else mret None
  end.

Definition sendMessageHandler (r : Request) : M outcome :=
  if bool_decide (Method r ≠ "POST") then
    emit (HttpReply 405 [("error", "Method not allowed")]);;
    mret Rejected
  else
    start ← time_Now;
    (* Main pipeline entry span *)
    pipelineSpan ← tracer_StartSpan "pipeline.step1.process" (ReqSpan r);
    correlationID ← orNewUUID rt (XCorrelationID r);
    let injectError := bool_decide (XInjectError r = "true") in
    (* Business logic processing span *)
    processingSpan ← tracer_StartSpan "pipeline.step1.business_logic"
                       (Some pipelineSpan);
    (* Create pipeline message with start timestamp *)
    let message := {| CorrelationID := correlationID;
                      Data := "Initial data from service1";
                      Pipeline := zeroPipeline;
                      ErrorType := "" |} in
    now ← time_Now;
    let message := set_Pipeline (set_StartTime (time_Format rt now)) message in
    let message := set_Pipeline (set_CurrentStep 1) message in
    message ← (if injectError then
                 statsd_Incr "business.pipeline.errors.step1" ["service:service1"];;
                 log_ Warn "Error injection activated - message marked as invalid_data"
                   [("correlation.id", correlationID); ("service", "service1");
                    ("pipeline.step", "1"); ("error.type", "invalid_data");
                    ("error.injected", "true")];;
                 mret (set_ErrorType "invalid_data" message)
               else mret message);
    (* Step1 processing simulation *)
    time_Sleep (20 * Millisecond);;
    step1Duration ← time_Since start;
    now ← time_Now;
    let message := set_Pipeline (set_Step1Complete (time_Format rt now)) message in
    (* SLI Metrics for SLO tracking *)
    statsd_Incr "sli.requests.total" ["service:service1"; "endpoint:/send-message"];;
    (if negb injectError then
       statsd_Incr "sli.requests.success"
         ["service:service1"; "endpoint:/send-message"]
     else
       statsd_Incr "sli.requests.error"
         ["service:service1"; "endpoint:/send-message"; "error_type:invalid_data"]);;
    when (step1Duration <=? 50 * Millisecond)
      (statsd_Incr "sli.latency.under_50ms" ["service:service1"]);;
    statsd_Timing "sli.response_time" step1Duration
      ["service:service1"; "endpoint:/send-message"];;
    (* Business Metrics *)
    statsd_Timing "business.pipeline.step1.duration" step1Duration
      ["service:service1"];;
    statsd_Incr "business.pipeline.messages.step1" ["service:service1"];;
    (* Send to Service2 via SQS *)
    sendErr ← sendToService2 pipelineSpan message correlationID;
    match (sendErr : option sendError) with
    | Some err =>
      log_ Error "Failed to send message to Service2"
        [("dd.trace_id", pretty (trace_id pipelineSpan));
         ("correlation.id", correlationID); ("service", "service1");
         ("pipeline.step", "1"); ("operation", "send_to_service2");
         ("queue.url", queueURL)];;
      (* SLI Error Metrics *)
      statsd_Incr "sli.requests.total"
        ["service:service1"; "endpoint:/send-message"];;
      statsd_Incr "sli.requests.error"
        ["service:service1"; "endpoint:/send-message";
         "error_type:sqs_send_failure"];;
      (* Classify error type for metrics *)
      (if bool_decide (typeName err = "*fmt.wrapError") then
         statsd_Incr "business.pipeline.errors.sqs.send" ["service:service1"]
       else
         statsd_Incr "business.pipeline.errors.unknown" ["service:service1"]);;
      emit (HttpReply 500
              [("error", "Internal server error: failed to process pipeline message")]);;
      mret match err with
           | MarshalError => MarshalFailed correlationID message
           | SqsError => SendFailed correlationID message
           end
    | None =>
      log_ Info "Step1 completed, message sent to Service2"
        [("dd.trace_id", pretty (trace_id pipelineSpan));
         ("correlation.id", correlationID); ("service", "service1");
         ("pipeline.step", "1");
         ("step1_duration", pretty (step1Duration `quot` Millisecond));
         ("error.injected", if injectError then "true" else "false")];;
      emit (HttpReply 200
              [("message", "Pipeline started - Step1 completed");
               ("correlation_id", correlationID); ("step", "1");
               ("duration_ms", pretty (step1Duration `quot` Millisecond))]);;
      mret (Completed correlationID message)
    end.

(** [homeHandler], the health endpoint. *)
Definition homeHandler (r : Request) : M unit :=
  span ← tracer_StartSpan "http.request" (ReqSpan r);
  correlationID ← orNewUUID rt (XCorrelationID r);
  (* SLI Metrics for health endpoint *)
  statsd_Incr "sli.requests.total" ["service:service1"; "endpoint:/"];;
  statsd_Incr "sli.requests.success" ["service:service1"; "endpoint:/"];;
  emit (HttpReply 200
          [("message", "Service1 - Pipeline Entry Point");
           ("correlation_id", correlationID); ("service", "service1")]).
End WithRuntime.

(** [main]: service 1 has no consumer loop. *)
Definition main (b : Boot) : list bootEvent * ending :=
  run (
    call (TracerStart "service1" []);;
    defer [TracerStop];;
    (if logFileOpens b then
       (* Use defer for proper resource cleanup *)
       defer (LogFileClose
              :: if logFileCloses b then []
                 else [BootLog Error "Failed to close log file"]);;
       call (LogToFile "service1.log")
     else call (BootLog Warn "Failed to open log file, using stdout"));;
    (if statsdStarts b then call StatsdOpen
     else log_Fatal (Some "Failed to initialize StatsD client"));;
    (* Use defer for proper resource cleanup *)
    defer (StatsdClose
           :: if statsdCloses b then []
              else [BootLog Error "Failed to close StatsD client"]);;
    (if awsConfigLoads b then mret tt
     else log_Fatal (Some "Failed to load AWS configuration"));;
    call SqsClient;;
    call (Stdout "Service1 running on :8080");;
    call (BootLog Info "Service1 started");;
    http_ListenAndServe b ":8080").
End Service1.

(** ** Reading traces *)

(** The SQS sends, deletes, sleeps, counters and timer samples of a
    trace, in the order they happened. *)
Definition sends (tr : list event) : list (string * string * gmap string string * bool) :=
  omap (λ e, match e with SqsSend q b a ok => Some (q, b, a, ok) | _ => None end) tr.

Definition deletes (tr : list event) : list (string * string * bool) :=
  omap (λ e, match e with SqsDelete q h ok => Some (q, h, ok) | _ => None end) tr.

Definition receives (tr : list event) : list (string * option (list Message)) :=
  omap (λ e, match e with SqsReceive q r => Some (q, r) | _ => None end) tr.

Definition sleeps (tr : list event) : list Z :=
  omap (λ e, match e with Sleep d => Some d | _ => None end) tr.

Definition counters (tr : list event) : list string :=
  omap (λ e, match e with Incr name _ => Some name | _ => None end) tr.

Definition timings (name : string) (tr : list event) : list Z :=
  omap (λ e, match e with
             | Timing name' d _ => if bool_decide (name' = name) then Some d else None
             | _ => None
             end) tr.

Definition logged (tr : list event) : list (Level * string) :=
  omap (λ e, match e with LogEntry lvl text _ => Some (lvl, text) | _ => None end) tr.

Definition spans (tr : list event) : list (string * option SpanContext) :=
  omap (λ e, match e with SpanStart op parent _ => Some (op, parent) | _ => None end) tr.

(** The HTTP replies, the spans started under a name, and how often a
    counter was incremented. *)
Definition replies (tr : list event) : list (Z * list (string * string)) :=
  omap (λ e, match e with HttpReply status fields => Some (status, fields) | _ => None end) tr.

Definition started (op : string) (tr : list event) : list SpanContext :=
  omap (λ e, match e with
             | SpanStart op' _ ctx => if bool_decide (op' = op) then Some ctx else None
             | _ => None
             end) tr.

Definition counted (name : string) (tr : list event) : nat :=
  length (omap (λ e, match e with
                     | Incr name' _ => if bool_decide (name' = name) then Some e else None
                     | _ => None
                     end) tr).

(** The trace each span started belongs to. *)
Definition traces (tr : list event) : list nat :=
  omap (λ e, match e with SpanStart _ _ ctx => Some (trace_id ctx) | _ => None end) tr.

(** The values logged under the field [key], over all entries. *)
Definition logFields (key : string) (tr : list event) : list string :=
  tr ≫= λ e, match e with
             | LogEntry _ _ fields =>
               omap (λ f, if bool_decide (f.1 = key) then Some f.2 else None) fields
             | _ => []
             end.

(** The calls made to the transport. *)
Definition sqs_calls (tr : list event) : list event :=
  omap (λ e, match e with
             | SqsReceive _ _ | SqsSend _ _ _ _ | SqsDelete _ _ _ => Some e
             | _ => None
             end) tr.

(** The bodies that reached [queue]: the successful sends to it. *)
Definition delivered (queue : string) (tr : list event) : list string :=
  omap (λ s, match s with
             | (q, b, _, ok) =>
               if ok && bool_decide (q = queue) then Some b else None
             end) (sends tr).



(** The value of the local variable [correlationID] of a handler that
    was given the id [given] and runs in [w]. *)
Definition correlationOf (rt : Runtime) (given : string) (w : World) : string :=
  if bool_decide (given = "") then uuid_String rt (uuids w) else given.

(** [w] with the coming SQS calls failing as [fs] says. *)
Definition withFaults (fs : list bool) (w : World) : World :=
  set_sqs (sqs_ids w) fs (visible w) (inflight w) w.


(** ** A test double for the collaborators

    A runtime small enough to run: messages are written as seven fields
    separated by a bar, instants as decimal numbers, and the carrier holds
    the two ids of the span context. *)
Module Double.

Fixpoint digits (s : string) (acc : N) : option N :=
  match s with
  | EmptyString => Some acc
  | String c s' =>
    let n := Ascii.N_of_ascii c in
    if ((48 <=? n) && (n <=? 57))%N then digits s' (10 * acc + (n - 48))%N
    else None
  end.

Definition number (s : string) : option N :=
  match s with
  | EmptyString => None
  | _ => digits s 0%N
  end.

Fixpoint fields (s : string) : list string :=
  match s with
  | EmptyString => [EmptyString]
  | String c s' =>
    if Ascii.eqb c "|"%char then EmptyString :: fields s'
    else match fields s' with
         | [] => [String c EmptyString]
         | x :: xs => String c x :: xs
         end
  end.

Definition decode (body : string) : option PipelineMessage :=
  match fields body with
  | [cid; data; start; step1; step2; current; err] =>
    match number current with
    | Some n =>
      Some {| CorrelationID := cid; Data := data;
              Pipeline := {| StartTime := start; Step1Complete := step1;
                             Step2Complete := step2;
                             CurrentStep := Z.of_N n |};
              ErrorType := err |}
    | None => None
    end
  | _ => None
  end.

Definition write (m : PipelineMessage) : string :=
  String.concat "|"
    [CorrelationID m; Data m; StartTime (Pipeline m);
     Step1Complete (Pipeline m); Step2Complete (Pipeline m);
     pretty (CurrentStep (Pipeline m)); ErrorType m].

(** Encoding refuses what would not decode to the same message. *)
Definition encode (m : PipelineMessage) : option string :=
  if decide (decode (write m) = Some m) then Some (write m) else None.

Definition extract (carrier : gmap string string) : option SpanContext :=
  match carrier !! "x-datadog-trace-id", carrier !! "x-datadog-parent-id" with
  | Some t, Some p =>
    match number t, number p with
    | Some t', Some p' => Some {| trace_id := N.to_nat t'; span_id := N.to_nat p' |}
    | _, _ => None
    end
  | _, _ => None
  end.

Definition inject (ctx : SpanContext) : gmap string string * bool :=
  (<["x-datadog-trace-id" := pretty (trace_id ctx)]>
     {["x-datadog-parent-id" := pretty (span_id ctx)]}, false).

Definition runtime : Runtime :=
  {| shardID := "shard-default"; servicePort := "8081";
     json_Unmarshal := decode; json_Marshal := encode;
     time_Parse := λ s, Z.of_N <$> number s;
     time_Format := pretty;
     tracer_Extract := extract; tracer_Inject := inject;
     uuid_String := λ n, "uuid-" +:+ pretty n |}.

(** An idle world at instant [1000], where each reading of the clock
    comes a millisecond after the last event. *)
Definition world : World :=
  {| clock := 1000 * Millisecond;
     drift := replicate 40 Millisecond;
     uuids := 0; span_ids := 0; sqs_ids := 0; faults := [];
     visible := ∅; inflight := ∅ |}.

(** A delivered message with the given receipt handle and body, and
    no attributes. *)
Definition handed (handle body : string) : Message :=
  {| MessageId := Some handle; ReceiptHandle := handle; Body := body;
     MessageAttributes := ∅ |}.

(** A delivered message that carries the attributes [attrs], as a
    stage sent them. *)
Definition carrying (handle body : string) (attrs : gmap string string)
  : Message :=
  {| MessageId := Some handle; ReceiptHandle := handle; Body := body;
     MessageAttributes := Some <$> attrs |}.

(** A start-up environment for shard [shard]: whether the log file
    opens, the metrics client starts, the AWS configuration loads and
    the listener comes back; closing never fails. *)
Definition boot (shard : string) (logFile statsd aws returns : bool) : Boot :=
  {| SHARD_ID := shard; SERVICE2_PORT := ""; logFileOpens := logFile;
     logFileCloses := true; statsdStarts := statsd; statsdCloses := true;
     awsConfigLoads := aws; listenReturns := returns |}.

(** [world] with [msg] delivered from [queue] and not yet deleted. *)
Definition holding (queue : string) (msg : Message) : World :=
  set_sqs 0 [] ∅ {[queue := [msg]]} world.

(** [world] with [msgs] waiting in [queue]. *)
Definition queued (queue : string) (msgs : list Message) : World :=
  set_sqs 0 [] {[queue := msgs]} ∅ world.

(** Message bodies: an item as stage 1 leaves it, with and without an
    error tag, with an error tag no stage writes, without correlation
    id, with a step counter ahead of stage 2; an item as stage 2 leaves
    it, with and without start time; and a body that is no item. *)
Definition freshItem : string := "c-1|payload|100|200||1|".
Definition invalidItem : string := "c-1|payload|100|200||1|invalid_data".
Definition timeoutItem : string := "c-1|payload|100|200||1|timeout".
Definition anonymousItem : string := "|payload|100|200||1|".
Definition aheadItem : string := "c-1|payload|100|200||3|".
Definition finalItem : string := "c-1|payload|100|200|300|2|".
Definition unstartedItem : string := "c-1|payload||200|300|2|".
Definition garbage : string := "not a work item".

Definition item (cid start step1 step2 : string) (current : Z) (err : string)
  : PipelineMessage :=
  {| CorrelationID := cid; Data := "payload";
     Pipeline := {| StartTime := start; Step1Complete := step1;
                    Step2Complete := step2; CurrentStep := current |};
     ErrorType := err |}.

(** The item stage 2 makes of [freshItem] when it stamps it [stamp]. *)
Definition forwarded (stamp : string) : PipelineMessage :=
  {| CorrelationID := "c-1"; Data := "Processed by service2: payload";
     Pipeline := {| StartTime := "100"; Step1Complete := "200";
                    Step2Complete := stamp; CurrentStep := 2 |};
     ErrorType := "" |}.

Definition post (cid inject : string) : Request :=
  {| Method := "POST"; XCorrelationID := cid; XInjectError := inject;
     ReqSpan := None |}.

(** The item stage 1 makes of [post "c-1" ""] in [world], and what stage
    2 makes of that one. *)
Definition ingressItem : PipelineMessage :=
  {| CorrelationID := "c-1"; Data := "Initial data from service1";
     Pipeline := {| StartTime := "1002000000"; Step1Complete := "1024000000";
                    Step2Complete := ""; CurrentStep := 1 |};
     ErrorType := "" |}.
Definition ingressBody : string :=
  "c-1|Initial data from service1|1002000000|1024000000||1|".
Definition relayedItem : PipelineMessage :=
  {| CorrelationID := "c-1";
     Data := "Processed by service2: Initial data from service1";
     Pipeline := {| StartTime := "1002000000"; Step1Complete := "1024000000";
                    Step2Complete := "1033000000"; CurrentStep := 2 |};
     ErrorType := "" |}.
Definition relayedBody : string :=
  "c-1|Processed by service2: Initial data from service1|1002000000|1024000000|1033000000|2|".

(** Runs of the three handlers: stage 1 on a request in [world], stages
    2 and 3 on a message with the given body that their input queue
    holds. *)
Abbreviation stage1 r := (Service1.sendMessageHandler runtime r world).
Abbreviation stage2 body :=
  (Service2.processStep2Message runtime (handed "rh-1" body)
     (holding Service2.inputQueueURL (handed "rh-1" body))).
Abbreviation stage3 body :=
  (Service3.processStep3Message runtime (handed "rh-2" body)
     (holding Service3.queueURL (handed "rh-2" body))).
End Double.


(** ** The claims as the specification words them, where the code differs *)

(** "A stage that receives an item with a non-empty error_type does no
    business logic, stamps nothing, counts an error, deletes the item from
    its input queue and forwards nothing", for the stage whose handler is
    [process]. *)
Definition ShortCircuitsOnError (process : Runtime → Message → M outcome)
    (inputQueue errorCounter : string) : Prop :=
  ∀ rt msg w m,
    json_Unmarshal rt (Body msg) = Some m →
    ErrorType m ≠ "" →
    ∃ cid w' tr,
      process rt msg w = (ShortCircuited cid m, w', tr)
      ∧ sleeps tr = []
      ∧ errorCounter ∈ counters tr
      ∧ (∃ ok, deletes tr = [(inputQueue, ReceiptHandle msg, ok)])
      ∧ sends tr = [].

(** "The item a stage forwards carries a non-empty correlation_id", for
    stage 2: [m'] is the item the next stage decodes from a body stage 2
    sent. *)
Definition ForwardsNonEmptyCorrelationID : Prop :=
  ∀ rt msg w body m',
    body ∈ delivered Service2.outputQueueURL (Service2.processStep2Message rt msg w).2 →
    json_Unmarshal rt body = Some m' →
    CorrelationID m' ≠ "".

(** "The current_step a stage writes is never smaller than the one the
    item came with", for stage 2. *)
Definition CurrentStepNeverDecreases : Prop :=
  ∀ rt msg w m cid m' w' tr,
    json_Unmarshal rt (Body msg) = Some m →
    Service2.processStep2Message rt msg w = (Completed cid m', w', tr) →
    CurrentStep (Pipeline m) ≤ CurrentStep (Pipeline m').

(** "A derived metric whose own timestamps are well-formed is emitted",
    for the step-2 duration that stage 3 computes from [step1_complete]
    and [step2_complete]. *)
Definition Step2DurationOnlyNeedsItsInputs : Prop :=
  ∀ rt msg w m t1 t2,
    json_Unmarshal rt (Body msg) = Some m →
    time_Parse rt (Step1Complete (Pipeline m)) = Some t1 →
    time_Parse rt (Step2Complete (Pipeline m)) = Some t2 →
    timings "business.pipeline.step2.calculated_duration"
      (Service3.processStep3Message rt msg w).2 = [time_Sub t2 t1].

(** ** Symbolic execution *)

(** [exec] unfolds the monad and the primitive operations and reduces
    what has become decidable; [branch] splits on the innermost condition
    the execution is stuck at.  [hide_strings] names the string literals
    of the goal, which keeps the terms small, and [forget_strings] also
    forgets what they spell, for goals in which no text is compared. *)
Ltac exec :=
  cbv beta iota zeta delta
    [mbind M_bind mret M_ret emit when time_Now time_Since time_Sleep
     statsd_Incr statsd_Timing log_ tracer_StartSpan sqs_SendMessage
     sqs_DeleteMessage sqs_ReceiveMessage uuid_New orNewUUID receiveSpan
     Service1.sendToService2 Service1.typeName];
  cbn [app clock drift uuids span_ids sqs_ids faults visible inflight
       set_clock set_uuids set_span_ids set_sqs trace_id span_id
       forRange negb fst snd].

Ltac innermost x k :=
  lazymatch x with
  | context [match ?y with _ => _ end] => innermost y k
  | _ => k x
  end.

Ltac split_on y :=
  lazymatch y with
  | bool_decide ?P => destruct (bool_decide_reflect P)
  | _ => destruct y eqn:?
  end.

Ltac branch :=
  match goal with
  | |- context [match ?x with _ => _ end] => innermost x split_on
  end; exec.

Ltac hide_strings :=
  repeat match goal with
         | |- context [String ?c ?s] =>
           let txt := fresh "txt" in set (txt := String c s)
         end.

Ltac forget_strings :=
  hide_strings;
  repeat match goal with txt := _ : string |- _ => clearbody txt end.

(** Settles the [bool_decide]s of a goal that the context decides. *)
Ltac decided :=
  repeat match goal with
         | |- context [bool_decide ?P] =>
           first [rewrite (bool_decide_eq_true_2 P) by assumption
                 |rewrite (bool_decide_eq_false_2 P) by assumption]
         end.

(** Finds an element in a list that is written out. *)
Ltac listed :=
  cbv beta iota delta [logged counters];
  cbn [omap list_omap];
  repeat first [apply list_elem_of_here | apply list_elem_of_further].


(** Evaluates the counts of a goal whose traces are written out. *)
Ltac count_all :=
  repeat match goal with
         | |- context [counted ?name ?tr] =>
           let n := eval lazy in (counted name tr) in
           change (counted name tr) with n
         end.

(** Tactics for the spans of a trace and for the runs of [main]. *)
Ltac each := repeat first [apply Forall_nil_2 | apply Forall_cons_2].

Ltac in_trace :=
  split;
  [cbv beta iota delta [traces]; cbn [omap list_omap trace_id]; each; reflexivity
  |cbv beta iota delta [sends]; cbn [omap list_omap]; each;
   match goal with
   | H : tracer_Inject _ ?s = _ |- _ =>
     eexists; exists s; rewrite H; split; reflexivity
   end].

Ltac boot :=
  cbv beta iota zeta delta
    [Service1.main Service2.main Service3.main Service2.init run mbind mret
     Proc_bind Proc_ret call defer log_Fatal panic http_ListenAndServe
     logFileOpens logFileCloses statsdStarts statsdCloses awsConfigLoads
     listenReturns SHARD_ID SERVICE2_PORT app concat fst snd andb].

Ltac present :=
  solve [repeat first [apply list_elem_of_here | apply list_elem_of_further]].

Ltac absent H :=
  repeat (apply elem_of_cons in H as [H|H]; [discriminate H|]);
  by apply elem_of_nil in H.

(** Evaluates the log fields read off a trace that is written out. *)
Ltac read_fields :=
  repeat match goal with
         | |- context [logFields ?k ?tr] =>
           let l := eval lazy in (logFields k tr) in
           change (logFields k tr) with l
         end.

(** ** Facts about the test double and the transport *)

Lemma double_roundtrip m b :
  json_Marshal Double.runtime m = Some b → json_Unmarshal Double.runtime b = Some m.
Proof.
  cbn. unfold Double.encode. case_decide; [|done]. by intros [= <-].
Qed.

Lemma double_uuid n : uuid_String Double.runtime n ≠ "".
Proof. cbn. discriminate. Qed.

(** What was delivered and not deleted is deliverable again once the
    visibility timeout has expired. *)
Lemma redeliver_visible queue w msg :
  msg ∈ inflight w !!! queue → msg ∈ visible (redeliver queue w) !!! queue.
Proof.
  intros Hin. unfold redeliver. cbn [visible set_sqs].
  rewrite lookup_total_insert_eq. apply elem_of_app. by right.
Qed.



(** ** The paths through each handler *)

(** Stage 2, for a body that decodes to [m]: it either short-circuits
    with [m] untouched, or updates the item to [m'] and then fails to
    marshal it, fails to send it, or sends it. *)
Lemma stage2_paths rt msg w m :
  json_Unmarshal rt (Body msg) = Some m →
  ∃ o w' tr,
    Service2.processStep2Message rt msg w = (o, w', tr)
    ∧ let cid := correlationOf rt (CorrelationID m) w in
      if bool_decide (ErrorType m = "invalid_data") then
        o = ShortCircuited cid m ∧ sends tr = []
      else
        ∃ now, let m' := Service2.updateForStep3 rt now m in
          match json_Marshal rt m' with
          | None => o = MarshalFailed cid m' ∧ sends tr = []
          | Some body =>
            ∃ carrier ok,
              sends tr = [(Service2.outputQueueURL, body, messageAttrs cid carrier, ok)]
              ∧ o = if ok then Completed cid m' else SendFailed cid m'
          end.
Proof.
  intros Hm. unfold Service2.processStep2Message, correlationOf. rewrite Hm.
  forget_strings. exec. repeat branch.
  all: do 3 eexists; (split; [reflexivity|]); cbv zeta; decided.
  all: try (split; reflexivity).
  all: eexists; match goal with H : json_Marshal _ _ = _ |- _ => rewrite H end.
  all: try (split; reflexivity).
  all: do 2 eexists; split; reflexivity.
Qed.

(** Stage 1, for a POST: the item it builds and what becomes of it. *)
Lemma stage1_paths rt r w :
  Method r = "POST" →
  ∃ o w' tr now0 now1,
    Service1.sendMessageHandler rt r w = (o, w', tr)
    ∧ let cid := correlationOf rt (XCorrelationID r) w in
      let m := {| CorrelationID := cid; Data := "Initial data from service1";
                  Pipeline := {| StartTime := time_Format rt now0;
                                 Step1Complete := time_Format rt now1;
                                 Step2Complete := ""; CurrentStep := 1 |};
                  ErrorType := if bool_decide (XInjectError r = "true")
                               then "invalid_data" else "" |} in
      match json_Marshal rt m with
      | None => o = MarshalFailed cid m ∧ sends tr = []
      | Some body =>
        ∃ carrier ok,
          sends tr = [(Service1.queueURL, body, messageAttrs cid carrier, ok)]
          ∧ o = if ok then Completed cid m else SendFailed cid m
      end.
Proof.
  intros Hm. unfold Service1.sendMessageHandler, correlationOf.
  rewrite (bool_decide_eq_false_2 (Method r ≠ "POST")) by (intros H; exact (H Hm)).
  forget_strings. exec. repeat branch.
  all: do 5 eexists; (split; [reflexivity|]); cbv zeta; decided.
  all: unfold set_Pipeline, set_ErrorType, set_StartTime, set_CurrentStep,
         set_Step1Complete, zeroPipeline in *;
       cbn [CorrelationID Data Pipeline ErrorType StartTime Step1Complete
            Step2Complete CurrentStep] in *.
  all: match goal with H : json_Marshal _ _ = _ |- _ => rewrite H end.
  all: try (split; reflexivity).
  all: do 2 eexists; split; reflexivity.
Qed.

(** Stage 3, for a body that decodes to [m]: it always runs to its
    end, with [m] untouched. *)
Lemma stage3_paths rt msg w m :
  json_Unmarshal rt (Body msg) = Some m →
  ∃ w' tr,
    Service3.processStep3Message rt msg w
    = (Completed (correlationOf rt (CorrelationID m) w) m, w', tr)
    ∧ sends tr = [] ∧ sleeps tr = [40 * Millisecond]
    ∧ deletes tr = [(Service3.queueURL, ReceiptHandle msg, negb (hd false (faults w)))].
Proof.
  intros Hm. unfold Service3.processStep3Message, correlationOf. rewrite Hm.
  forget_strings. exec. repeat branch.
  all: do 2 eexists; (split; [reflexivity|]).
  all: repeat split; reflexivity.
Qed.

Lemma stage1_rejects rt r w :
  Method r ≠ "POST" →
  Service1.sendMessageHandler rt r w
  = (Rejected, w, [HttpReply 405 [("error", "Method not allowed")]]).
Proof.
  intros Hm. unfold Service1.sendMessageHandler.
  rewrite (bool_decide_eq_true_2 _ Hm). reflexivity.
Qed.

Lemma delivered_one queue tr q body attrs ok b :
  sends tr = [(q, body, attrs, ok)] →
  b ∈ delivered queue tr → ok = true ∧ b = body.
Proof.
  intros Hs. unfold delivered. rewrite Hs. cbn.
  destruct ok; cbn; [|by intros ?%elem_of_nil].
  case_bool_decide; cbn; [|by intros ?%elem_of_nil].
  by intros ->%list_elem_of_singleton.
Qed.

Lemma delivered_none queue tr b : sends tr = [] → b ∉ delivered queue tr.
Proof. intros Hs. unfold delivered. rewrite Hs. apply not_elem_of_nil. Qed.

Lemma correlationOf_nonempty rt given w :
  (∀ n, uuid_String rt n ≠ "") → correlationOf rt given w ≠ "".
Proof. intros Hu. unfold correlationOf. case_bool_decide; [apply Hu|done]. Qed.

Lemma correlationOf_given rt given w :
  given ≠ "" → correlationOf rt given w = given.
Proof. intros H. unfold correlationOf. by rewrite bool_decide_eq_false_2. Qed.

(** A run that ended in [o] is [o] with the world and the trace it left. *)
Lemma run_eta {A} (r : A * World * list event) (o : A) :
  r.1.1 = o → r = (o, r.1.2, r.2).
Proof. destruct r as [[? ?] ?]. cbn. by intros ->. Qed.

(** What a successful run of stage 2 forwarded, in one place. *)
Lemma stage2_completed rt msg w m cid m' w' tr :
  json_Unmarshal rt (Body msg) = Some m →
  Service2.processStep2Message rt msg w = (Completed cid m', w', tr) →
  cid = correlationOf rt (CorrelationID m) w
  ∧ ErrorType m ≠ "invalid_data"
  ∧ ∃ now body carrier,
      m' = Service2.updateForStep3 rt now m
      ∧ json_Marshal rt m' = Some body
      ∧ sends tr = [(Service2.outputQueueURL, body, messageAttrs cid carrier, true)].
Proof.
  intros Hm Hrun.
  destruct (stage2_paths rt msg w m Hm) as (o & w1 & tr1 & Hrun' & Hpath).
  rewrite Hrun in Hrun'. injection Hrun' as <- <- <-. cbv zeta in Hpath.
  case_bool_decide; [by destruct Hpath|].
  destruct Hpath as (now & Hpath). cbv zeta in Hpath.
  destruct (json_Marshal rt (Service2.updateForStep3 rt now m)) as [body|] eqn:Hb.
  - destruct Hpath as (carrier & [] & Hs & [= -> ->]).
    split; [done|]. split; [done|]. by exists now, body, carrier.
  - by destruct Hpath.
Qed.

Lemma stage1_completed rt r w cid m w' tr :
  Service1.sendMessageHandler rt r w = (Completed cid m, w', tr) →
  cid = correlationOf rt (XCorrelationID r) w
  ∧ CorrelationID m = cid
  ∧ CurrentStep (Pipeline m) = 1
  ∧ Step2Complete (Pipeline m) = ""
  ∧ ∃ body carrier,
      json_Marshal rt m = Some body
      ∧ sends tr = [(Service1.queueURL, body, messageAttrs cid carrier, true)].
Proof.
  intros Hrun. destruct (decide (Method r = "POST")) as [Hp|Hp].
  - destruct (stage1_paths rt r w Hp) as (o & w1 & tr1 & now0 & now1 & Hrun' & Hpath).
    rewrite Hrun in Hrun'. injection Hrun' as <- <- <-. cbv zeta in Hpath.
    match type of Hpath with match json_Marshal rt ?x with _ => _ end =>
      destruct (json_Marshal rt x) as [body|] eqn:Hb end.
    + destruct Hpath as (carrier & [] & Hs & [= -> ->]).
      repeat split; try reflexivity. by exists body, carrier.
    + by destruct Hpath.
  - rewrite stage1_rejects in Hrun by done. discriminate Hrun.
Qed.

(** ** Durations *)

Lemma time_Sub_exact t u :
  minDuration ≤ t - u ≤ maxDuration → time_Sub t u = t - u.
Proof. unfold time_Sub, minDuration, maxDuration. lia. Qed.

Lemma time_Sub_mono t t' u : t ≤ t' → time_Sub t u ≤ time_Sub t' u.
Proof. unfold time_Sub. lia. Qed.

Lemma time_Sub_range t u : minDuration ≤ time_Sub t u ≤ maxDuration.
Proof. unfold time_Sub, minDuration, maxDuration. lia. Qed.

(** ** The hand-over of each stage *)

(** The attributes of an outgoing message, key by key. *)
Lemma messageAttrs_at cid (carrier : gmap string string) k :
  messageAttrs cid carrier !! k
  = match carrier !! k with
    | Some v => Some v
    | None => if bool_decide (k = "correlation-id") then Some cid else None
    end.
Proof.
  unfold messageAttrs. destruct (carrier !! k) as [v|] eqn:Hk.
  - by apply lookup_union_Some_l.
  - rewrite lookup_union_r by exact Hk. case_bool_decide as Heq.
    + rewrite Heq. apply lookup_singleton_eq.
    + apply lookup_singleton_ne. congruence.
Qed.

(** Stage 1, for a POST: the spans it opens, what it logs, and the one
    call it makes to the transport, whatever the tracer answers. *)
Lemma stage1_handoff rt r w :
  Method r = "POST" →
  ∃ o w' tr top snd now0 now1,
    Service1.sendMessageHandler rt r w = (o, w', tr)
    ∧ let cid := correlationOf rt (XCorrelationID r) w in
      let m := {| CorrelationID := cid; Data := "Initial data from service1";
                  Pipeline := {| StartTime := time_Format rt now0;
                                 Step1Complete := time_Format rt now1;
                                 Step2Complete := ""; CurrentStep := 1 |};
                  ErrorType := if bool_decide (XInjectError r = "true")
                               then "invalid_data" else "" |} in
      started "pipeline.step1.process" tr = [top]
      ∧ top = {| trace_id := match ReqSpan r with
                             | Some p => trace_id p
                             | None => span_ids w
                             end;
                 span_id := span_ids w |}
      ∧ started "sqs.send_message.service_queue_step1" tr = [snd]
      ∧ trace_id snd = trace_id top
      ∧ ((tracer_Inject rt snd).2 = true →
         (Warn, "Failed to inject trace context, continuing without tracing")
         ∈ logged tr)
      ∧ Forall (λ v, v = cid) (logFields "correlation.id" tr)
      ∧ match json_Marshal rt m with
        | None =>
          o = MarshalFailed cid m ∧ sqs_calls tr = []
          ∧ (λ reply, reply.1) <$> replies tr = [500]
        | Some body =>
          o = (if hd false (faults w) then SendFailed cid m else Completed cid m)
          ∧ sqs_calls tr
            = [SqsSend Service1.queueURL body
                 (messageAttrs cid (tracer_Inject rt snd).1)
                 (negb (hd false (faults w)))]
          ∧ (λ reply, reply.1) <$> replies tr
            = [if hd false (faults w) then 500 else 200]
        end.
Proof.
  intros Hm.
  unfold Service1.sendMessageHandler, Service1.sendToService2, Service1.typeName,
    correlationOf.
  rewrite (bool_decide_eq_false_2 (Method r ≠ "POST")) by (intros H; exact (H Hm)).
  hide_strings. exec. repeat branch.
  all: do 7 eexists; (split; [reflexivity|]); cbv zeta; decided.
  all: unfold set_Pipeline, set_ErrorType, set_StartTime, set_CurrentStep,
         set_Step1Complete, zeroPipeline in *;
       cbn [CorrelationID Data Pipeline ErrorType StartTime Step1Complete
            Step2Complete CurrentStep] in *.
  all: split; [reflexivity|].
  all: split; [reflexivity|].
  all: split; [reflexivity|].
  all: split; [reflexivity|].
  all: split;
    [intros Hi;
     match goal with E : tracer_Inject _ _ = _ |- _ => rewrite E in Hi end;
     cbn [snd] in Hi; first [discriminate Hi | listed]|].
  all: split; [read_fields; each; reflexivity|].
  all: match goal with H : json_Marshal _ _ = _ |- _ => rewrite H end.
  all: try match goal with E : tracer_Inject _ _ = _ |- _ => rewrite E end.
  all: repeat split; reflexivity.
Qed.

(** Stage 2, on an item it does not short-circuit. *)
Lemma stage2_handoff rt msg w m :
  json_Unmarshal rt (Body msg) = Some m →
  ErrorType m ≠ "invalid_data" →
  ∃ o w' tr recv snd now,
    Service2.processStep2Message rt msg w = (o, w', tr)
    ∧ let cid := correlationOf rt (CorrelationID m) w in
      let m' := Service2.updateForStep3 rt now m in
      spans tr = [("sqs.receive", tracer_Extract rt (carrierOf msg));
                  ("sqs.send", Some recv)]
      ∧ started "sqs.receive" tr = [recv]
      ∧ recv = {| trace_id := match tracer_Extract rt (carrierOf msg) with
                              | Some c => trace_id c
                              | None => span_ids w
                              end;
                  span_id := span_ids w |}
      ∧ started "sqs.send" tr = [snd]
      ∧ trace_id snd = trace_id recv
      ∧ (tracer_Extract rt (carrierOf msg) = None →
         (Debug, "Failed to extract trace context, starting new span") ∈ logged tr)
      ∧ ((tracer_Inject rt snd).2 = true →
         (Debug, "Failed to inject trace context, continuing without tracing")
         ∈ logged tr)
      ∧ Forall (λ v, v = cid) (logFields "correlation.id" tr)
      ∧ match json_Marshal rt m' with
        | None => o = MarshalFailed cid m' ∧ sqs_calls tr = []
        | Some body =>
          o = (if hd false (faults w) then SendFailed cid m' else Completed cid m')
          ∧ sqs_calls tr
            = SqsSend Service2.outputQueueURL body
                (messageAttrs cid (tracer_Inject rt snd).1)
                (negb (hd false (faults w)))
              :: (if hd false (faults w) then []
                  else [SqsDelete Service2.inputQueueURL (ReceiptHandle msg)
                          (negb (hd false (tail (faults w))))])
        end.
Proof.
  intros Hm He. unfold Service2.processStep2Message, receiveSpan, correlationOf.
  rewrite Hm, (bool_decide_eq_false_2 _ He).
  hide_strings. exec. repeat branch.
  all: do 6 eexists; (split; [reflexivity|]); cbv zeta.
  all: split; [reflexivity|].
  all: split; [reflexivity|].
  all: split; [reflexivity|].
  all: split; [reflexivity|].
  all: split; [reflexivity|].
  all: split; [intros Hx; first [discriminate Hx | listed]|].
  all: split;
    [intros Hi;
     match goal with E : tracer_Inject _ _ = _ |- _ => rewrite E in Hi end;
     cbn [snd] in Hi; first [discriminate Hi | listed]|].
  all: split; [read_fields; each; reflexivity|].
  all: match goal with H : json_Marshal _ _ = _ |- _ => rewrite H end.
  all: try match goal with E : tracer_Inject _ _ = _ |- _ => rewrite E end.
  all: split; reflexivity.
Qed.


(** The sends of a trace are those among its calls to the transport. *)
Lemma sends_sqs_calls tr : sends (sqs_calls tr) = sends tr.
Proof.
  induction tr as [|e tr IH]; [reflexivity|].
  unfold sends, sqs_calls in *. destruct e; cbn [omap list_omap]; by rewrite ?IH.
Qed.

Lemma sqs_calls_app t1 t2 : sqs_calls (t1 ++ t2) = sqs_calls t1 ++ sqs_calls t2.
Proof. unfold sqs_calls. apply omap_app. Qed.

(** ** Correlation id, step counter and frame of a forwarded item *)

(** C10.  On the success path of stage 2 the forwarded item differs from
    the received one in the payload, [step2_complete] and [current_step]
    only: [correlation_id], [start_time], [step1_complete] and
    [error_type] are those of the received item, and the body sent to the
    step-2 queue is that item marshalled. *)
Theorem stage2_forward_frame rt msg w m cid m' w' tr :
  json_Unmarshal rt (Body msg) = Some m →
  Service2.processStep2Message rt msg w = (Completed cid m', w', tr) →
  CorrelationID m' = CorrelationID m
  ∧ StartTime (Pipeline m') = StartTime (Pipeline m)
  ∧ Step1Complete (Pipeline m') = Step1Complete (Pipeline m)
  ∧ ErrorType m' = ErrorType m
  ∧ Data m' = "Processed by service2: " +:+ Data m
  ∧ CurrentStep (Pipeline m') = 2
  ∧ (∃ now, Step2Complete (Pipeline m') = time_Format rt now)
  ∧ ∃ body attrs,
      json_Marshal rt m' = Some body
      ∧ sends tr = [(Service2.outputQueueURL, body, attrs, true)].
Proof.
  intros Hm Hrun.
  destruct (stage2_completed _ _ _ _ _ _ _ _ Hm Hrun)
    as (_ & _ & now & body & carrier & -> & Hb & Hs).
  repeat split; try reflexivity; [by exists now|].
  by exists body, (messageAttrs cid carrier).
Qed.

Lemma stage2_forward_frame_witness :
  json_Unmarshal Double.runtime Double.freshItem
  = Some (Double.item "c-1" "100" "200" "" 1 "")
  ∧ (Double.stage2 Double.freshItem).1.1
    = Completed "c-1" (Double.forwarded "1033000000")
  ∧ CorrelationID (Double.forwarded "1033000000") = "c-1"
  ∧ StartTime (Pipeline (Double.forwarded "1033000000")) = "100"
  ∧ Step1Complete (Pipeline (Double.forwarded "1033000000")) = "200"
  ∧ ErrorType (Double.forwarded "1033000000") = "".
Proof.
  assert (Hm : json_Unmarshal Double.runtime Double.freshItem
               = Some (Double.item "c-1" "100" "200" "" 1 "")) by reflexivity.
  assert (Ho : (Double.stage2 Double.freshItem).1.1
               = Completed "c-1" (Double.forwarded "1033000000"))
    by (vm_compute; reflexivity).
  destruct (stage2_forward_frame Double.runtime (Double.handed "rh-1" Double.freshItem)
              _ _ _ _ _ _ Hm (run_eta _ _ Ho))
    as (Hc & Hs & H1 & He & _).
  repeat split; assumption.
Defined.

(** C8, as the specification words it, fails: stage 2 writes 2 over a
    step counter of 3. *)
Lemma current_step_can_decrease : ¬ CurrentStepNeverDecreases.
Proof.
  intros H.
  assert (Ho : (Double.stage2 Double.aheadItem).1.1
               = Completed "c-1"
                   (Service2.updateForStep3 Double.runtime 1033000000
                      (Double.item "c-1" "100" "200" "" 3 "")))
    by (vm_compute; reflexivity).
  specialize (H Double.runtime (Double.handed "rh-1" Double.aheadItem) _
                (Double.item "c-1" "100" "200" "" 3 "")
                _ _ _ _ eq_refl (run_eta _ _ Ho)).
  cbn in H. lia.
Qed.

(** C8, amended.  Stage 2 writes [current_step = 2] whatever the item
    carried; that is not smaller than the received value whenever the
    received value is at most 2. *)
Theorem stage2_current_step rt msg w m cid m' w' tr :
  json_Unmarshal rt (Body msg) = Some m →
  Service2.processStep2Message rt msg w = (Completed cid m', w', tr) →
  CurrentStep (Pipeline m') = 2
  ∧ (CurrentStep (Pipeline m) ≤ 2 →
     CurrentStep (Pipeline m) ≤ CurrentStep (Pipeline m')).
Proof.
  intros Hm Hrun.
  destruct (stage2_completed _ _ _ _ _ _ _ _ Hm Hrun) as (_ & _ & now & _ & _ & -> & _).
  split; [reflexivity|]. intros Hle. exact Hle.
Qed.

Lemma stage2_current_step_witness :
  json_Unmarshal Double.runtime Double.aheadItem
  = Some (Double.item "c-1" "100" "200" "" 3 "")
  ∧ (Double.stage2 Double.aheadItem).1.1
    = Completed "c-1"
        (Service2.updateForStep3 Double.runtime 1033000000
           (Double.item "c-1" "100" "200" "" 3 ""))
  ∧ CurrentStep (Pipeline (Double.item "c-1" "100" "200" "" 3 "")) = 3
  ∧ CurrentStep
      (Pipeline (Service2.updateForStep3 Double.runtime 1033000000
                   (Double.item "c-1" "100" "200" "" 3 ""))) = 2.
Proof.
  assert (Hm : json_Unmarshal Double.runtime Double.aheadItem
               = Some (Double.item "c-1" "100" "200" "" 3 "")) by reflexivity.
  assert (Ho : (Double.stage2 Double.aheadItem).1.1
               = Completed "c-1"
                   (Service2.updateForStep3 Double.runtime 1033000000
                      (Double.item "c-1" "100" "200" "" 3 "")))
    by (vm_compute; reflexivity).
  split; [exact Hm|]. split; [exact Ho|]. split; [reflexivity|].
  exact (proj1 (stage2_current_step Double.runtime
                  (Double.handed "rh-1" Double.aheadItem)
                  _ _ _ _ _ _ Hm (run_eta _ _ Ho))).
Defined.

(** Every item stage 1 hands over carries [current_step = 1], and stage 3
    leaves the item as it decoded it. *)
Lemma stage1_current_step rt r w cid m w' tr :
  Service1.sendMessageHandler rt r w = (Completed cid m, w', tr) →
  CurrentStep (Pipeline m) = 1.
Proof. intros Hrun. by destruct (stage1_completed _ _ _ _ _ _ _ Hrun) as (_ & _ & ? & _). Qed.

Lemma stage3_leaves_item rt msg w m o w' tr :
  json_Unmarshal rt (Body msg) = Some m →
  Service3.processStep3Message rt msg w = (o, w', tr) →
  ∃ cid, o = Completed cid m.
Proof.
  intros Hm Hrun. destruct (stage3_paths rt msg w m Hm) as (w1 & tr1 & Hrun' & _).
  rewrite Hrun in Hrun'. injection Hrun' as -> _ _. by eexists.
Qed.

(** C7, as the specification words it, fails: an item that reaches stage
    2 without correlation id leaves it without one. *)
Lemma empty_correlation_id_is_forwarded : ¬ ForwardsNonEmptyCorrelationID.
Proof.
  intros H.
  refine (H Double.runtime (Double.handed "rh-1" Double.anonymousItem)
            (Double.holding Service2.inputQueueURL
               (Double.handed "rh-1" Double.anonymousItem))
            "|Processed by service2: payload|100|200|1033000000|2|"
            {| CorrelationID := ""; Data := "Processed by service2: payload";
               Pipeline := {| StartTime := "100"; Step1Complete := "200";
                              Step2Complete := "1033000000"; CurrentStep := 2 |};
               ErrorType := "" |} _ eq_refl eq_refl).
  assert (delivered Service2.outputQueueURL (Double.stage2 Double.anonymousItem).2
          = ["|Processed by service2: payload|100|200|1033000000|2|"]) as Hd
    by (vm_compute; reflexivity).
  rewrite Hd. apply list_elem_of_here.
Qed.

(** C7, amended.  The item stage 1 hands over carries the non-empty
    correlation id taken from the request or generated.  Stage 2 uses the
    id of the item, or a generated one if the item has none, for its own
    records and for the [correlation-id] attribute of the message it
    sends (unless the trace carrier has an entry of that name, which
    then stands in its place), and forwards the item with the
    [correlation_id] it came with.  The attributes of either message are
    those built from that id and from what the tracer wrote for the span
    of the send. *)
Theorem correlation_id_at_boundaries rt :
  (∀ n, uuid_String rt n ≠ "") →
  (∀ r w cid m w' tr,
     Service1.sendMessageHandler rt r w = (Completed cid m, w', tr) →
     cid ≠ ""
     ∧ (XCorrelationID r ≠ "" → cid = XCorrelationID r)
     ∧ (XCorrelationID r = "" → cid = uuid_String rt (uuids w))
     ∧ CorrelationID m = cid
     ∧ Forall (λ v, v = cid) (logFields "correlation.id" tr)
     ∧ ∃ body snd,
         started "sqs.send_message.service_queue_step1" tr = [snd]
         ∧ json_Marshal rt m = Some body
         ∧ sends tr
           = [(Service1.queueURL, body,
               messageAttrs cid (tracer_Inject rt snd).1, true)]
         ∧ messageAttrs cid (tracer_Inject rt snd).1 !! "correlation-id"
           = Some (default cid ((tracer_Inject rt snd).1 !! "correlation-id")))
  ∧ (∀ msg w m cid m' w' tr,
       json_Unmarshal rt (Body msg) = Some m →
       Service2.processStep2Message rt msg w = (Completed cid m', w', tr) →
       cid ≠ ""
       ∧ (CorrelationID m ≠ "" → cid = CorrelationID m)
       ∧ (CorrelationID m = "" → cid = uuid_String rt (uuids w))
       ∧ CorrelationID m' = CorrelationID m
       ∧ Forall (λ v, v = cid) (logFields "correlation.id" tr)
       ∧ ∃ body snd,
           started "sqs.send" tr = [snd]
           ∧ json_Marshal rt m' = Some body
           ∧ sends tr
             = [(Service2.outputQueueURL, body,
                 messageAttrs cid (tracer_Inject rt snd).1, true)]
           ∧ messageAttrs cid (tracer_Inject rt snd).1 !! "correlation-id"
             = Some (default cid ((tracer_Inject rt snd).1 !! "correlation-id"))).
Proof.
  intros Hu. split.
  - intros r w cid m w' tr Hrun.
    destruct (decide (Method r = "POST")) as [Hp|Hp];
      [|rewrite stage1_rejects in Hrun by done; discriminate Hrun].
    destruct (stage1_handoff rt r w Hp)
      as (o & w1 & tr1 & top & snd & now0 & now1 & Hrun' & H).
    rewrite Hrun in Hrun'. injection Hrun' as <- <- <-. cbv zeta in H.
    destruct H as (_ & _ & Hsnd & _ & _ & Hlog & H).
    match type of H with match json_Marshal rt ?x with _ => _ end =>
      destruct (json_Marshal rt x) as [body|] eqn:Hb end;
      [|by destruct H as ([=] & _)].
    destruct H as (Ho & Hcalls & _).
    destruct (hd false (faults w)); [discriminate Ho|].
    injection Ho as -> ->.
    split; [by apply correlationOf_nonempty|].
    split; [intros H; by apply correlationOf_given|].
    split; [intros H; unfold correlationOf; by rewrite bool_decide_eq_true_2|].
    split; [reflexivity|]. split; [exact Hlog|].
    exists body, snd. split; [exact Hsnd|]. split; [exact Hb|].
    split; [by rewrite <- sends_sqs_calls, Hcalls|].
    rewrite messageAttrs_at. by destruct (_ !! _).
  - intros msg w m cid m' w' tr Hm Hrun.
    destruct (stage2_completed _ _ _ _ _ _ _ _ Hm Hrun) as (_ & He & _).
    destruct (stage2_handoff rt msg w m Hm He)
      as (o & w1 & tr1 & recv & snd & now & Hrun' & H).
    rewrite Hrun in Hrun'. injection Hrun' as <- <- <-. cbv zeta in H.
    destruct H as (_ & _ & _ & Hsnd & _ & _ & _ & Hlog & H).
    destruct (json_Marshal rt (Service2.updateForStep3 rt now m)) as [body|] eqn:Hb;
      [|by destruct H as ([=] & _)].
    destruct H as (Ho & Hcalls).
    destruct (hd false (faults w)); [discriminate Ho|].
    injection Ho as -> ->.
    split; [by apply correlationOf_nonempty|].
    split; [intros H; by apply correlationOf_given|].
    split; [intros H; unfold correlationOf; by rewrite bool_decide_eq_true_2|].
    split; [reflexivity|]. split; [exact Hlog|].
    exists body, snd. split; [exact Hsnd|]. split; [exact Hb|].
    split; [by rewrite <- sends_sqs_calls, Hcalls|].
    rewrite messageAttrs_at. by destruct (_ !! _).
Qed.

Lemma correlation_id_at_boundaries_witness :
  (Double.stage1 (Double.post "" "")).1.1
  = Completed "uuid-0"
      {| CorrelationID := "uuid-0"; Data := "Initial data from service1";
         Pipeline := {| StartTime := "1002000000"; Step1Complete := "1024000000";
                        Step2Complete := ""; CurrentStep := 1 |};
         ErrorType := "" |}
  ∧ "uuid-0" ≠ ""
  ∧ json_Unmarshal Double.runtime Double.anonymousItem
    = Some (Double.item "" "100" "200" "" 1 "")
  ∧ ∃ m' w' tr,
      Double.stage2 Double.anonymousItem = (Completed "uuid-0" m', w', tr)
      ∧ CorrelationID m' = ""
      ∧ Forall (λ v, v = "uuid-0") (logFields "correlation.id" tr)
      ∧ ∃ body snd,
          sends tr
          = [(Service2.outputQueueURL, body,
              messageAttrs "uuid-0" (tracer_Inject Double.runtime snd).1, true)].
Proof.
  destruct (correlation_id_at_boundaries Double.runtime double_uuid) as [H1 H2].
  assert (Ho1 : (Double.stage1 (Double.post "" "")).1.1
                = Completed "uuid-0"
                    {| CorrelationID := "uuid-0"; Data := "Initial data from service1";
                       Pipeline := {| StartTime := "1002000000";
                                      Step1Complete := "1024000000";
                                      Step2Complete := ""; CurrentStep := 1 |};
                       ErrorType := "" |}) by (vm_compute; reflexivity).
  assert (Hm : json_Unmarshal Double.runtime Double.anonymousItem
               = Some (Double.item "" "100" "200" "" 1 "")) by reflexivity.
  assert (Ho2 : (Double.stage2 Double.anonymousItem).1.1
                = Completed "uuid-0"
                    (Service2.updateForStep3 Double.runtime 1033000000
                       (Double.item "" "100" "200" "" 1 "")))
    by (vm_compute; reflexivity).
  split; [exact Ho1|].
  split; [exact (proj1 (H1 _ _ _ _ _ _ (run_eta _ _ Ho1)))|].
  split; [exact Hm|].
  destruct (H2 (Double.handed "rh-1" Double.anonymousItem) _ _ _ _ _ _ Hm
              (run_eta _ _ Ho2)) as (_ & _ & _ & Hc & Hl & body & snd & _ & _ & Hs & _).
  eexists _, _, _. split; [exact (run_eta _ _ Ho2)|].
  split; [exact Hc|]. split; [exact Hl|]. exists body, snd. exact Hs.
Defined.

(** C6.  The correlation id assigned at ingress (taken from the request,
    or generated) is the one stage 3 observes: stage 1 puts it in the
    item, stage 2 decodes it, keeps it in the item it forwards, and stage
    3 decodes it again and uses it unchanged.  The messages are any that
    carry the bodies the previous stage delivered; the JSON codec is
    assumed to decode what it encoded. *)
Theorem correlation_id_stable rt r w1 cid m1 w1' tr1 msg1 w2 msg2 w3 :
  (∀ m b, json_Marshal rt m = Some b → json_Unmarshal rt b = Some m) →
  (∀ n, uuid_String rt n ≠ "") →
  Service1.sendMessageHandler rt r w1 = (Completed cid m1, w1', tr1) →
  Body msg1 ∈ delivered Service1.queueURL tr1 →
  Body msg2 ∈ delivered Service2.outputQueueURL
                (Service2.processStep2Message rt msg1 w2).2 →
  cid = correlationOf rt (XCorrelationID r) w1
  ∧ CorrelationID m1 = cid
  ∧ json_Unmarshal rt (Body msg1) = Some m1
  ∧ ∃ m2 w3' tr3,
      (Service2.processStep2Message rt msg1 w2).1.1 = Completed cid m2
      ∧ CorrelationID m2 = cid
      ∧ json_Unmarshal rt (Body msg2) = Some m2
      ∧ Service3.processStep3Message rt msg2 w3 = (Completed cid m2, w3', tr3).
Proof.
  intros Hrt Hu Hrun1 Hd1 Hd2.
  destruct (stage1_completed _ _ _ _ _ _ _ Hrun1)
    as (Hcid & Hc1 & _ & _ & body1 & carrier1 & Hb1 & Hs1).
  destruct (delivered_one _ _ _ _ _ _ _ Hs1 Hd1) as [_ Hbody1].
  assert (Hm1 : json_Unmarshal rt (Body msg1) = Some m1)
    by (rewrite Hbody1; by apply Hrt).
  assert (Hne : cid ≠ "") by (rewrite Hcid; by apply correlationOf_nonempty).
  split; [exact Hcid|]. split; [exact Hc1|]. split; [exact Hm1|].
  destruct (stage2_paths rt msg1 w2 m1 Hm1) as (o2 & w2' & tr2 & Hrun2 & Hpath).
  rewrite Hrun2 in Hd2 |- *. cbn [fst snd] in Hd2 |- *. cbv zeta in Hpath.
  rewrite Hc1, (correlationOf_given _ _ _ Hne) in Hpath.
  case_bool_decide.
  { destruct Hpath as [_ Hs]. by destruct (delivered_none _ _ _ Hs Hd2). }
  destruct Hpath as (now & Hpath). cbv zeta in Hpath.
  destruct (json_Marshal rt (Service2.updateForStep3 rt now m1)) as [body2|] eqn:Hb2.
  2: { destruct Hpath as [_ Hs]. by destruct (delivered_none _ _ _ Hs Hd2). }
  destruct Hpath as (carrier2 & ok & Hs2 & Ho2).
  destruct (delivered_one _ _ _ _ _ _ _ Hs2 Hd2) as [-> Hbody2].
  assert (Hm2 : json_Unmarshal rt (Body msg2)
                = Some (Service2.updateForStep3 rt now m1))
    by (rewrite Hbody2; by apply Hrt).
  destruct (stage3_paths rt msg2 w3 _ Hm2) as (w3' & tr3 & Hrun3 & _).
  cbn [CorrelationID Service2.updateForStep3 set_Pipeline set_Data] in Hrun3.
  rewrite Hc1, (correlationOf_given _ _ _ Hne) in Hrun3.
  exists (Service2.updateForStep3 rt now m1), w3', tr3.
  split; [exact Ho2|]. split; [exact Hc1|]. split; [exact Hm2|exact Hrun3].
Qed.

Lemma correlation_id_stable_witness :
  (Double.stage1 (Double.post "c-1" "")).1.1 = Completed "c-1" Double.ingressItem
  ∧ delivered Service1.queueURL (Double.stage1 (Double.post "c-1" "")).2
    = [Double.ingressBody]
  ∧ delivered Service2.outputQueueURL (Double.stage2 Double.ingressBody).2
    = [Double.relayedBody]
  ∧ (Double.stage2 Double.ingressBody).1.1 = Completed "c-1" Double.relayedItem
  ∧ ∃ w3' tr3,
      Double.stage3 Double.relayedBody = (Completed "c-1" Double.relayedItem, w3', tr3).
Proof.
  assert (Ho1 : (Double.stage1 (Double.post "c-1" "")).1.1
                = Completed "c-1" Double.ingressItem) by (vm_compute; reflexivity).
  assert (Hd1 : delivered Service1.queueURL (Double.stage1 (Double.post "c-1" "")).2
                = [Double.ingressBody]) by (vm_compute; reflexivity).
  assert (Hd2 : delivered Service2.outputQueueURL (Double.stage2 Double.ingressBody).2
                = [Double.relayedBody]) by (vm_compute; reflexivity).
  assert (Ho2 : (Double.stage2 Double.ingressBody).1.1
                = Completed "c-1" Double.relayedItem) by (vm_compute; reflexivity).
  split; [exact Ho1|]. split; [exact Hd1|]. split; [exact Hd2|]. split; [exact Ho2|].
  destruct (correlation_id_stable Double.runtime (Double.post "c-1" "") Double.world
              "c-1" Double.ingressItem _ _
              (Double.handed "rh-1" Double.ingressBody)
              (Double.holding Service2.inputQueueURL
                 (Double.handed "rh-1" Double.ingressBody))
              (Double.handed "rh-2" Double.relayedBody)
              (Double.holding Service3.queueURL
                 (Double.handed "rh-2" Double.relayedBody))
              double_roundtrip double_uuid (run_eta _ _ Ho1))
    as (_ & _ & _ & m2 & w3' & tr3 & Ho2' & _ & _ & Hrun3).
  - rewrite Hd1. apply list_elem_of_here.
  - rewrite Hd2. apply list_elem_of_here.
  - rewrite Ho2 in Ho2'. injection Ho2' as <-. by exists w3', tr3.
Defined.

(** ** Short circuit, malformed bodies, acknowledgement *)

(** C1, as the specification words it, fails at both consuming stages:
    stage 2 forwards an item whose error tag is not [invalid_data], and
    stage 3 runs to its end whatever the tag. *)
Lemma short_circuit_not_on_every_error :
  ¬ ShortCircuitsOnError Service2.processStep2Message Service2.inputQueueURL
      "business.pipeline.errors.step2"
  ∧ ∀ counter,
      ¬ ShortCircuitsOnError Service3.processStep3Message Service3.queueURL counter.
Proof.
  split; [|intros counter]; intros H.
  - destruct (H Double.runtime (Double.handed "rh-1" Double.timeoutItem) Double.world
                _ eq_refl) as (cid & w' & tr & Hrun & _); [discriminate|].
    apply (f_equal (λ r, match r.1.1 with ShortCircuited _ _ => true | _ => false end))
      in Hrun.
    vm_compute in Hrun. discriminate Hrun.
  - destruct (H Double.runtime (Double.handed "rh-2" Double.invalidItem) Double.world
                _ eq_refl) as (cid & w' & tr & Hrun & _); [discriminate|].
    apply (f_equal (λ r, match r.1.1 with ShortCircuited _ _ => true | _ => false end))
      in Hrun.
    vm_compute in Hrun. discriminate Hrun.
Qed.

(** C1, amended.  Stage 2, on an item whose error tag is [invalid_data]:
    it leaves through the short-circuit return with the item untouched
    (no [step2_complete], payload and [current_step] as received), never
    sleeps through its processing step, counts the error, asks its input
    queue to delete the message, sends nothing and adds nothing to any
    queue; if the delete call succeeds the message is gone from the
    queue. *)
Theorem stage2_short_circuits_invalid_data rt msg w m :
  json_Unmarshal rt (Body msg) = Some m →
  ErrorType m = "invalid_data" →
  ∃ cid w' tr,
    Service2.processStep2Message rt msg w = (ShortCircuited cid m, w', tr)
    ∧ sleeps tr = []
    ∧ "business.pipeline.errors.step2" ∈ counters tr
    ∧ deletes tr = [(Service2.inputQueueURL, ReceiptHandle msg,
                     negb (hd false (faults w)))]
    ∧ sends tr = []
    ∧ visible w' = visible w
    ∧ (hd false (faults w) = false → msg ∉ inflight w' !!! Service2.inputQueueURL).
Proof.
  intros Hm He. unfold Service2.processStep2Message.
  rewrite Hm, (bool_decide_eq_true_2 _ He).
  forget_strings. exec. repeat branch.
  all: do 3 eexists; split; [reflexivity|].
  all: repeat split; try reflexivity; try listed; try congruence.
  all: intros _; cbn [inflight set_sqs];
    rewrite lookup_total_insert_eq, list_elem_of_filter; tauto.
Qed.

Lemma stage2_short_circuits_invalid_data_witness :
  json_Unmarshal Double.runtime Double.invalidItem
  = Some (Double.item "c-1" "100" "200" "" 1 "invalid_data")
  ∧ ErrorType (Double.item "c-1" "100" "200" "" 1 "invalid_data") = "invalid_data"
  ∧ ∃ cid w' tr,
      Double.stage2 Double.invalidItem
      = (ShortCircuited cid (Double.item "c-1" "100" "200" "" 1 "invalid_data"), w', tr)
      ∧ sleeps tr = [] ∧ sends tr = []
      ∧ deletes tr = [(Service2.inputQueueURL, "rh-1", true)].
Proof.
  split; [reflexivity|]. split; [reflexivity|].
  destruct (stage2_short_circuits_invalid_data Double.runtime
              (Double.handed "rh-1" Double.invalidItem)
              (Double.holding Service2.inputQueueURL
                 (Double.handed "rh-1" Double.invalidItem))
              (Double.item "c-1" "100" "200" "" 1 "invalid_data") eq_refl eq_refl)
    as (cid & w' & tr & Hrun & Hsl & _ & Hd & Hs & _).
  exists cid, w', tr. repeat split; assumption.
Defined.

(** Stage 2 on a body that does not decode: counted, and the delete is
    asked for; nothing else is asked of the transport. *)
Lemma stage2_deletes_malformed rt msg w :
  json_Unmarshal rt (Body msg) = None →
  ∃ w' tr,
    Service2.processStep2Message rt msg w = (Malformed, w', tr)
    ∧ sqs_calls tr = [SqsDelete Service2.inputQueueURL (ReceiptHandle msg)
                        (negb (hd false (faults w)))]
    ∧ "business.pipeline.errors.json.unmarshal" ∈ counters tr.
Proof.
  intros Hm. unfold Service2.processStep2Message. rewrite Hm. exec. branch.
  all: do 2 eexists; split; [reflexivity|]; split; [reflexivity|listed].
Qed.

(** Stage 3 on a body that does not decode: one log entry, and nothing
    is asked of the transport. *)
Lemma stage3_keeps_malformed rt msg w :
  json_Unmarshal rt (Body msg) = None →
  ∃ w' tr,
    Service3.processStep3Message rt msg w = (Malformed, w', tr)
    ∧ sqs_calls tr = []
    ∧ inflight w' = inflight w.
Proof.
  intros Hm. unfold Service3.processStep3Message. rewrite Hm. exec.
  do 2 eexists; split; [reflexivity|]; split; reflexivity.
Qed.

(** C2, at stage 3.  Two messages wait in the step-2 queue, the first
    with a body that is no work item.  Two rounds of the consumer loop
    take both, so the loop does go on after the malformed one; but only
    the second message is deleted, the malformed one stays with the
    queue, and once redelivered it is received and found malformed
    again. *)
Theorem stage3_never_deletes_malformed :
  (Service3.consumeFromStep2 Double.runtime 2
     (Double.queued Service3.queueURL
        [Double.handed "rh-bad" Double.garbage;
         Double.handed "rh-good" Double.finalItem])).1.1
  = [Malformed; Completed "c-1" (Double.item "c-1" "100" "200" "300" 2 "")]
  ∧ deletes
      (Service3.consumeFromStep2 Double.runtime 2
         (Double.queued Service3.queueURL
            [Double.handed "rh-bad" Double.garbage;
             Double.handed "rh-good" Double.finalItem])).2
    = [(Service3.queueURL, "rh-good", true)]
  ∧ inflight
      (Service3.consumeFromStep2 Double.runtime 2
         (Double.queued Service3.queueURL
            [Double.handed "rh-bad" Double.garbage;
             Double.handed "rh-good" Double.finalItem])).1.2
    !!! Service3.queueURL
    = [Double.handed "rh-bad" Double.garbage]
  ∧ (Service3.pollStep2 Double.runtime
       (redeliver Service3.queueURL
          (Service3.consumeFromStep2 Double.runtime 2
             (Double.queued Service3.queueURL
                [Double.handed "rh-bad" Double.garbage;
                 Double.handed "rh-good" Double.finalItem])).1.2)).1.1
    = [Malformed].
Proof. repeat split; vm_compute; reflexivity. Qed.

(** The same two messages at stage 2: both are deleted. *)
Lemma stage2_deletes_malformed_example :
  (Service2.consumeFromStep1 Double.runtime 2
     (Double.queued Service2.inputQueueURL
        [Double.handed "rh-bad" Double.garbage;
         Double.handed "rh-good" Double.freshItem])).1.1
  = [Malformed; Completed "c-1" (Double.forwarded "1034000000")]
  ∧ deletes
      (Service2.consumeFromStep1 Double.runtime 2
         (Double.queued Service2.inputQueueURL
            [Double.handed "rh-bad" Double.garbage;
             Double.handed "rh-good" Double.freshItem])).2
    = [(Service2.inputQueueURL, "rh-bad", true);
       (Service2.inputQueueURL, "rh-good", true)].
Proof. repeat split; vm_compute; reflexivity. Qed.

(** C3.  Stage 2, on an item it does not short-circuit, asks the
    transport for nothing if marshalling fails, for the send alone if the
    send fails, and for the delete only after the send has succeeded.  In
    the two failure cases the input queue is left as it was, so that the
    message becomes deliverable again when its visibility timeout
    expires. *)
Theorem stage2_acks_only_after_send rt msg w m :
  json_Unmarshal rt (Body msg) = Some m →
  ErrorType m ≠ "invalid_data" →
  ∃ o w' tr,
    Service2.processStep2Message rt msg w = (o, w', tr)
    ∧ match o with
      | MarshalFailed _ m' =>
        json_Marshal rt m' = None
        ∧ sqs_calls tr = []
        ∧ inflight w' = inflight w
        ∧ (msg ∈ inflight w !!! Service2.inputQueueURL →
           msg ∈ visible (redeliver Service2.inputQueueURL w')
                   !!! Service2.inputQueueURL)
      | SendFailed _ m' =>
        ∃ body attrs,
          json_Marshal rt m' = Some body
          ∧ hd false (faults w) = true
          ∧ sqs_calls tr = [SqsSend Service2.outputQueueURL body attrs false]
          ∧ inflight w' = inflight w ∧ visible w' = visible w
          ∧ (msg ∈ inflight w !!! Service2.inputQueueURL →
             msg ∈ visible (redeliver Service2.inputQueueURL w')
                     !!! Service2.inputQueueURL)
      | Completed _ m' =>
        ∃ body attrs,
          json_Marshal rt m' = Some body
          ∧ hd false (faults w) = false
          ∧ sqs_calls tr
            = [SqsSend Service2.outputQueueURL body attrs true;
               SqsDelete Service2.inputQueueURL (ReceiptHandle msg)
                 (negb (hd false (tail (faults w))))]
      | _ => False
      end.
Proof.
  intros Hm He. unfold Service2.processStep2Message.
  rewrite Hm, (bool_decide_eq_false_2 _ He).
  forget_strings. exec. repeat branch.
  all: do 3 eexists; (split; [reflexivity|]); cbv beta iota.
  all: repeat first [split; [first [reflexivity | assumption]|] | eexists].
  all: first [reflexivity | assumption | apply redeliver_visible].
Qed.

Lemma stage2_acks_only_after_send_witness :
  json_Unmarshal Double.runtime Double.freshItem
  = Some (Double.item "c-1" "100" "200" "" 1 "")
  ∧ ErrorType (Double.item "c-1" "100" "200" "" 1 "") ≠ "invalid_data"
  ∧ (Service2.processStep2Message Double.runtime
       (Double.handed "rh-1" Double.freshItem)
       (withFaults [true]
          (Double.holding Service2.inputQueueURL
             (Double.handed "rh-1" Double.freshItem)))).1.1
    = SendFailed "c-1" (Double.forwarded "1033000000")
  ∧ deletes
      (Service2.processStep2Message Double.runtime
         (Double.handed "rh-1" Double.freshItem)
         (withFaults [true]
            (Double.holding Service2.inputQueueURL
               (Double.handed "rh-1" Double.freshItem)))).2
    = []
  ∧ ∃ o w' tr,
      Service2.processStep2Message Double.runtime
        (Double.handed "rh-1" Double.freshItem)
        (withFaults [true]
           (Double.holding Service2.inputQueueURL
              (Double.handed "rh-1" Double.freshItem)))
      = (o, w', tr)
      ∧ o ≠ Malformed.
Proof.
  assert (Hm : json_Unmarshal Double.runtime Double.freshItem
               = Some (Double.item "c-1" "100" "200" "" 1 "")) by reflexivity.
  assert (He : ErrorType (Double.item "c-1" "100" "200" "" 1 "") ≠ "invalid_data")
    by discriminate.
  split; [exact Hm|]. split; [exact He|].
  split; [vm_compute; reflexivity|]. split; [vm_compute; reflexivity|].
  destruct (stage2_acks_only_after_send Double.runtime
              (Double.handed "rh-1" Double.freshItem)
              (withFaults [true]
                 (Double.holding Service2.inputQueueURL
                    (Double.handed "rh-1" Double.freshItem)))
              _ Hm He) as (o & w' & tr & Hrun & Ho).
  exists o, w', tr. split; [exact Hrun|]. by destruct o.
Defined.

(** ** The consumer loops *)

(** Stage 3, when the receive call fails: the round is over at once.
    The trace holds the failed call and nothing else (no log entry, no
    counter, no pause) and the world has moved on by that call only. *)
Lemma pollStep2_receive_error rt fs w :
  Service3.pollStep2 rt (withFaults (true :: fs) w)
  = ([], withFaults fs w, [SqsReceive Service3.queueURL None]).
Proof. reflexivity. Qed.

(** The same at stage 2: logged, counted, and followed by a pause of five
    seconds. *)
Lemma stage2_receive_error_logged rt fs w :
  Service2.pollStep1 rt (withFaults (true :: fs) w)
  = ([], set_clock (clock w + 5 * Second) (drift w) (withFaults fs w),
     [SqsReceive Service2.inputQueueURL None;
      LogEntry Error "Failed to receive messages from SQS, retrying..."
        [("service", "service2"); ("operation", "sqs_receive");
         ("shard", shardID rt); ("queue.url", Service2.inputQueueURL)];
      Incr "business.pipeline.errors.sqs.receive" ["service:service2"];
      Sleep (5 * Second)]).
Proof. reflexivity. Qed.

Lemma bind_run {A B} (c : M A) (f : A → M B) w :
  (c ≫= f) w
  = ((f (c w).1.1 (c w).1.2).1.1, (f (c w).1.1 (c w).1.2).1.2,
     (c w).2 ++ (f (c w).1.1 (c w).1.2).2).
Proof.
  unfold mbind, M_bind. destruct (c w) as [[a w1] t1]. cbn.
  by destruct (f a w1) as [[b w2] t2].
Qed.

Lemma receives_app t1 t2 : receives (t1 ++ t2) = receives t1 ++ receives t2.
Proof. unfold receives. apply omap_app. Qed.

Lemma stage2_no_receive rt msg w :
  receives (Service2.processStep2Message rt msg w).2 = [].
Proof.
  unfold Service2.processStep2Message. forget_strings. exec. repeat branch.
  all: reflexivity.
Qed.

Lemma stage3_no_receive rt msg w :
  receives (Service3.processStep3Message rt msg w).2 = [].
Proof.
  unfold Service3.processStep3Message. forget_strings. exec. repeat branch.
  all: reflexivity.
Qed.

Lemma forRange_no_receive {B} (f : Message → M B) msgs :
  (∀ msg w, receives (f msg w).2 = []) →
  ∀ w, receives (forRange f msgs w).2 = [].
Proof.
  intros Hf. induction msgs as [|msg msgs IH]; intros w; [reflexivity|].
  cbn [forRange]. rewrite bind_run. cbn [snd]. rewrite receives_app, Hf.
  rewrite bind_run. cbn [snd]. rewrite receives_app, IH. reflexivity.
Qed.

Lemma pollStep1_receives_once rt w :
  length (receives (Service2.pollStep1 rt w).2) = 1%nat.
Proof.
  unfold Service2.pollStep1. rewrite bind_run. cbn [snd].
  rewrite receives_app, length_app.
  unfold sqs_ReceiveMessage.
  destruct (hd false (faults w)); [reflexivity|].
  destruct (visible w !!! Service2.inputQueueURL); cbn [fst snd].
  - reflexivity.
  - rewrite (forRange_no_receive _ _ (stage2_no_receive rt)). reflexivity.
Qed.

Lemma pollStep2_receives_once rt w :
  length (receives (Service3.pollStep2 rt w).2) = 1%nat.
Proof.
  unfold Service3.pollStep2. rewrite bind_run. cbn [snd].
  rewrite receives_app, length_app.
  unfold sqs_ReceiveMessage.
  destruct (hd false (faults w)); [reflexivity|].
  destruct (visible w !!! Service3.queueURL); cbn [fst snd].
  - reflexivity.
  - rewrite (forRange_no_receive _ _ (stage3_no_receive rt)). reflexivity.
Qed.

(** Neither loop has a way out: whatever the transport answers and
    whatever the messages are, every round gets to its receive call, so
    as many rounds as are run, as many receive calls are made. *)
Lemma consumeFromStep1_polls_every_round rt fuel w :
  length (receives (Service2.consumeFromStep1 rt fuel w).2) = fuel.
Proof.
  revert w. induction fuel as [|fuel IH]; intros w; [reflexivity|].
  cbn [Service2.consumeFromStep1]. rewrite bind_run. cbn [snd].
  rewrite receives_app, length_app, pollStep1_receives_once.
  rewrite bind_run. cbn [snd]. rewrite receives_app, length_app, IH.
  cbn. lia.
Qed.

Lemma consumeFromStep2_polls_every_round rt fuel w :
  length (receives (Service3.consumeFromStep2 rt fuel w).2) = fuel.
Proof.
  revert w. induction fuel as [|fuel IH]; intros w; [reflexivity|].
  cbn [Service3.consumeFromStep2]. rewrite bind_run. cbn [snd].
  rewrite receives_app, length_app, pollStep2_receives_once.
  rewrite bind_run. cbn [snd]. rewrite receives_app, length_app, IH.
  cbn. lia.
Qed.

(** C5, at stage 3.  While the receive call keeps failing the loop of
    stage 3 does retry, round after round, but that is all it does: [n]
    failures in a row leave a trace of [n] failed receive calls, with no
    log entry, no counter and no pause between them, and the clock where
    it was. *)
Theorem stage3_retries_without_pause rt n fs w :
  Service3.consumeFromStep2 rt n (withFaults (replicate n true ++ fs) w)
  = ([], withFaults fs w, replicate n (SqsReceive Service3.queueURL None)).
Proof.
  induction n as [|n IH]; [reflexivity|].
  cbn [replicate app Service3.consumeFromStep2].
  rewrite bind_run, pollStep2_receive_error. cbn [fst snd].
  rewrite bind_run, IH. unfold mret, M_ret. cbn [fst snd app].
  by rewrite app_nil_r.
Qed.

(** At stage 2 every failure is logged, counted and followed by a pause
    of five seconds. *)
Lemma stage2_retries_with_pause rt n fs w :
  ∃ w' tr,
    Service2.consumeFromStep1 rt n (withFaults (replicate n true ++ fs) w)
    = ([], w', tr)
    ∧ clock w' = clock w + Z.of_nat n * (5 * Second)
    ∧ faults w' = fs
    ∧ sleeps tr = replicate n (5 * Second)
    ∧ length (logged tr) = n.
Proof.
  revert w. induction n as [|n IH]; intros w.
  - exists (withFaults fs w), []. repeat split. cbn. lia.
  - cbn [replicate app Service2.consumeFromStep1].
    rewrite bind_run, stage2_receive_error_logged. cbn [fst snd].
    rewrite bind_run.
    destruct (IH (set_clock (clock w + 5 * Second) (drift w) w))
      as (w' & tr & Hrun & Hc & Hf & Hs & Hl).
    change (set_clock (clock w + 5 * Second) (drift w) (withFaults fs w))
      with (withFaults fs (set_clock (clock w + 5 * Second) (drift w) w)).
    change (set_clock (clock w + 5 * Second) (drift w)
              (withFaults (replicate n true ++ fs) w))
      with (withFaults (replicate n true ++ fs)
              (set_clock (clock w + 5 * Second) (drift w) w)).
    rewrite Hrun. unfold mret, M_ret. cbn [fst snd app]. rewrite app_nil_r.
    eexists _, _. split; [reflexivity|].
    split; [rewrite Hc; cbn [clock set_clock]; lia|]. split; [exact Hf|].
    split.
    + cbn. f_equal. exact Hs.
    + cbn. f_equal. exact Hl.
Qed.

(** ** Derived metrics *)

(** C9, as the specification words it, fails: with an empty start time
    and well-formed [step1_complete] and [step2_complete], stage 3 does
    not emit the step-2 duration computed from those two. *)
Lemma step2_duration_needs_start_time : ¬ Step2DurationOnlyNeedsItsInputs.
Proof.
  intros H.
  specialize (H Double.runtime (Double.handed "rh-2" Double.unstartedItem)
                (Double.holding Service3.queueURL
                   (Double.handed "rh-2" Double.unstartedItem))
                (Double.item "c-1" "" "200" "300" 2 "") 200 300
                eq_refl eq_refl eq_refl).
  vm_compute in H. discriminate H.
Qed.

(** The step-1-to-step-2 delay at stage 2: emitted if and only if
    [step1_complete] parses, as the time from it to the instant the
    handler started at. *)
Lemma stage2_derived_metric rt msg w m :
  json_Unmarshal rt (Body msg) = Some m →
  ∃ o w' tr,
    Service2.processStep2Message rt msg w = (o, w', tr)
    ∧ o ≠ Malformed
    ∧ timings "business.pipeline.step1_to_step2.duration" tr
      = match time_Parse rt (Step1Complete (Pipeline m)) with
        | Some step1 => [time_Sub (clock w + hd 0 (drift w)) step1]
        | None => []
        end.
Proof.
  intros Hm. unfold Service2.processStep2Message. rewrite Hm.
  hide_strings. exec. repeat branch.
  all: do 3 eexists; (split; [reflexivity|]); split; [discriminate|reflexivity].
Qed.

(** The derived metrics of stage 3, each with the timestamps that guard
    it and the readings of the clock it is taken at. *)
Lemma stage3_derived_metrics rt msg w m :
  json_Unmarshal rt (Body msg) = Some m →
  ∃ cid w' tr,
    Service3.processStep3Message rt msg w = (Completed cid m, w', tr)
    ∧ let t0 := clock w + hd 0 (drift w) in
      let t1 := t0 + 40 * Millisecond + hd 0 (tail (drift w)) in
      let t2 := t1 + hd 0 (tail (tail (drift w))) in
      let t3 := t2 + hd 0 (tail (tail (tail (drift w)))) in
      timings "business.pipeline.step2_to_step3.duration" tr
      = match time_Parse rt (Step2Complete (Pipeline m)) with
        | Some step2 => [time_Sub t0 step2]
        | None => []
        end
      ∧ timings "business.pipeline.step3.duration" tr = [time_Sub t1 t0]
      ∧ timings "business.pipeline.end_to_end.duration" tr
        = match time_Parse rt (StartTime (Pipeline m)) with
          | Some start => [time_Sub t2 start]
          | None => []
          end
      ∧ timings "business.pipeline.step1.calculated_duration" tr
        = match time_Parse rt (StartTime (Pipeline m)),
                time_Parse rt (Step1Complete (Pipeline m)) with
          | Some start, Some step1 => [time_Sub step1 start]
          | _, _ => []
          end
      ∧ timings "business.pipeline.step2.calculated_duration" tr
        = match time_Parse rt (StartTime (Pipeline m)),
                time_Parse rt (Step1Complete (Pipeline m)),
                time_Parse rt (Step2Complete (Pipeline m)) with
          | Some _, Some step1, Some step2 => [time_Sub step2 step1]
          | _, _, _ => []
          end
      ∧ timings "sli.pipeline.duration" tr
        = match time_Parse rt (StartTime (Pipeline m)) with
          | Some start => [time_Sub t3 start]
          | None => []
          end.
Proof.
  intros Hm. unfold Service3.processStep3Message. rewrite Hm.
  hide_strings. exec. repeat branch.
  all: do 3 eexists; (split; [reflexivity|]); cbv zeta.
  all: repeat split; reflexivity.
Qed.

(** C9, amended.  A derived metric is emitted if and only if every
    timestamp its guards parse is well-formed, and then with the
    difference it is defined as, which is the exact difference wherever
    that is a duration and the largest or the smallest duration where it
    is not; otherwise nothing is emitted under its name, the other
    metrics are not affected, and the stage does not fail.  The guards
    are the metric's own timestamps, except that the step-2 duration of
    stage 3, computed from [step1_complete] and [step2_complete], is also
    guarded by [start_time].  The two end-to-end samples of stage 3 are
    taken at two successive readings of the clock, [t2] and [t3]. *)
Theorem derived_metrics_follow_their_guards rt msg w m :
  json_Unmarshal rt (Body msg) = Some m →
  let t0 := clock w + hd 0 (drift w) in
  let t1 := t0 + 40 * Millisecond + hd 0 (tail (drift w)) in
  let t2 := t1 + hd 0 (tail (tail (drift w))) in
  let t3 := t2 + hd 0 (tail (tail (tail (drift w)))) in
  (∃ o w' tr,
     Service2.processStep2Message rt msg w = (o, w', tr)
     ∧ o ≠ Malformed
     ∧ timings "business.pipeline.step1_to_step2.duration" tr
       = match time_Parse rt (Step1Complete (Pipeline m)) with
         | Some step1 => [time_Sub t0 step1]
         | None => []
         end)
  ∧ (∃ cid w' tr,
       Service3.processStep3Message rt msg w = (Completed cid m, w', tr)
       ∧ timings "business.pipeline.step2_to_step3.duration" tr
         = match time_Parse rt (Step2Complete (Pipeline m)) with
           | Some step2 => [time_Sub t0 step2]
           | None => []
           end
       ∧ timings "business.pipeline.end_to_end.duration" tr
         = match time_Parse rt (StartTime (Pipeline m)) with
           | Some start => [time_Sub t2 start]
           | None => []
           end
       ∧ timings "business.pipeline.step1.calculated_duration" tr
         = match time_Parse rt (StartTime (Pipeline m)),
                 time_Parse rt (Step1Complete (Pipeline m)) with
           | Some start, Some step1 => [time_Sub step1 start]
           | _, _ => []
           end
       ∧ timings "business.pipeline.step2.calculated_duration" tr
         = match time_Parse rt (StartTime (Pipeline m)),
                 time_Parse rt (Step1Complete (Pipeline m)),
                 time_Parse rt (Step2Complete (Pipeline m)) with
           | Some _, Some step1, Some step2 => [time_Sub step2 step1]
           | _, _, _ => []
           end
       ∧ timings "sli.pipeline.duration" tr
         = match time_Parse rt (StartTime (Pipeline m)) with
           | Some start => [time_Sub t3 start]
           | None => []
           end)
  ∧ (∀ t u, minDuration ≤ t - u ≤ maxDuration → time_Sub t u = t - u)
  ∧ (∀ t u, maxDuration ≤ t - u → time_Sub t u = maxDuration)
  ∧ (∀ t u, t - u ≤ minDuration → time_Sub t u = minDuration).
Proof.
  intros Hm. cbv zeta. split; [exact (stage2_derived_metric rt msg w m Hm)|].
  split.
  - destruct (stage3_derived_metrics rt msg w m Hm)
      as (cid & w' & tr & Hrun & H). cbv zeta in H.
    destruct H as (H23 & _ & He & H1 & H2 & Hs).
    exists cid, w', tr. by repeat split.
  - split; [exact time_Sub_exact|].
    split; intros t u; unfold time_Sub, minDuration, maxDuration; lia.
Qed.

Lemma derived_metrics_follow_their_guards_witness :
  json_Unmarshal Double.runtime Double.unstartedItem
  = Some (Double.item "c-1" "" "200" "300" 2 "")
  ∧ ∃ cid w' tr,
      Double.stage3 Double.unstartedItem
      = (Completed cid (Double.item "c-1" "" "200" "300" 2 ""), w', tr)
      ∧ timings "business.pipeline.step2_to_step3.duration" tr = [1001000000 - 300]
      ∧ timings "business.pipeline.step2.calculated_duration" tr = [].
Proof.
  split; [reflexivity|].
  destruct (derived_metrics_follow_their_guards Double.runtime
              (Double.handed "rh-2" Double.unstartedItem)
              (Double.holding Service3.queueURL
                 (Double.handed "rh-2" Double.unstartedItem))
              (Double.item "c-1" "" "200" "300" 2 "") eq_refl)
    as (_ & (cid & w' & tr & Hrun & H23 & _ & _ & H2 & _) & _).
  exists cid, w', tr. split; [exact Hrun|]. split; [exact H23|exact H2].
Defined.

(** ** Tracing *)




(** The receive span of stages 2 and 3: a child of the extracted context,
    or a new root, with a debug entry, where the extraction failed. *)
Lemma stage2_receive_span rt msg w m :
  json_Unmarshal rt (Body msg) = Some m →
  head (spans (Service2.processStep2Message rt msg w).2)
  = Some ("sqs.receive", tracer_Extract rt (carrierOf msg))
  ∧ (tracer_Extract rt (carrierOf msg) = None →
     (Debug, "Failed to extract trace context, starting new span")
     ∈ logged (Service2.processStep2Message rt msg w).2).
Proof.
  intros Hm. unfold Service2.processStep2Message, receiveSpan. rewrite Hm.
  forget_strings. exec. repeat branch.
  all: split; [reflexivity|]; intros; first [discriminate | listed].
Qed.

Lemma stage3_receive_span rt msg w m :
  json_Unmarshal rt (Body msg) = Some m →
  head (spans (Service3.processStep3Message rt msg w).2)
  = Some ("sqs.receive", tracer_Extract rt (carrierOf msg))
  ∧ (tracer_Extract rt (carrierOf msg) = None →
     (Debug, "Failed to extract trace context, starting new span")
     ∈ logged (Service3.processStep3Message rt msg w).2).
Proof.
  intros Hm. unfold Service3.processStep3Message, receiveSpan. rewrite Hm.
  forget_strings. exec. repeat branch.
  all: split; [reflexivity|]; intros; first [discriminate | listed].
Qed.



(** * Further properties *)

(** ** Stage 1: replies, transport and counters *)

(** Every request gets exactly one reply, and its status tells how the
    handler ended: 405 for anything but a POST, which is turned away
    before any span, metric or send; 200, with the correlation id, once
    the item is on the step-1 queue; 500 if marshalling or sending
    failed.  The only call the handler ever makes to the transport is one
    send to the step-1 queue. *)
Theorem stage1_reply_and_transport rt r w :
  ∃ o w' tr,
    Service1.sendMessageHandler rt r w = (o, w', tr)
    ∧ match o with
      | Rejected =>
        Method r ≠ "POST" ∧ w' = w
        ∧ tr = [HttpReply 405 [("error", "Method not allowed")]]
      | Completed cid _ =>
        Method r = "POST"
        ∧ (∃ ms, replies tr
                 = [(200, [("message", "Pipeline started - Step1 completed");
                           ("correlation_id", cid); ("step", "1");
                           ("duration_ms", ms)])])
        ∧ ∃ body attrs, sqs_calls tr = [SqsSend Service1.queueURL body attrs true]
      | MarshalFailed _ _ =>
        Method r = "POST"
        ∧ replies tr
          = [(500, [("error",
                     "Internal server error: failed to process pipeline message")])]
        ∧ sqs_calls tr = []
      | SendFailed _ _ =>
        Method r = "POST"
        ∧ replies tr
          = [(500, [("error",
                     "Internal server error: failed to process pipeline message")])]
        ∧ ∃ body attrs, sqs_calls tr = [SqsSend Service1.queueURL body attrs false]
      | _ => False
      end.
Proof.
  unfold Service1.sendMessageHandler. forget_strings. exec.
  branch.
  { do 3 eexists. split; [reflexivity|]. repeat split. assumption. }
  assert (Hp : Method r = txt) by (by apply dec_stable).
  repeat branch.
  all: do 3 eexists; (split; [reflexivity|]); cbv beta iota.
  all: split; [exact Hp|].
  all: repeat first [split; [reflexivity|] | eexists]; reflexivity.
Qed.

(** How often stage 1 increments its counters on a POST, by the way the
    handler ended ([failed]) and by whether an error was injected. *)
Lemma stage1_counters rt r w :
  Method r = "POST" →
  ∃ o w' tr,
    Service1.sendMessageHandler rt r w = (o, w', tr)
    ∧ let failed := match o with Completed _ _ => 0%nat | _ => 1%nat end in
      let injected := if bool_decide (XInjectError r = "true") then 1%nat else 0%nat in
      match o with
      | Completed _ _ | MarshalFailed _ _ | SendFailed _ _ => True
      | _ => False
      end
      ∧ counted "sli.requests.total" tr = (1 + failed)%nat
      ∧ counted "sli.requests.success" tr = (1 - injected)%nat
      ∧ counted "sli.requests.error" tr = (injected + failed)%nat
      ∧ counted "business.pipeline.errors.sqs.send" tr = failed
      ∧ counted "business.pipeline.errors.unknown" tr = 0%nat
      ∧ counted "business.pipeline.errors.step1" tr = injected
      ∧ counted "business.pipeline.messages.step1" tr = 1%nat.
Proof.
  intros Hm.
  unfold Service1.sendMessageHandler, Service1.sendToService2, Service1.typeName.
  rewrite (bool_decide_eq_false_2 (Method r ≠ "POST")) by (intros H; exact (H Hm)).
  hide_strings. exec.
  repeat (branch; try match goal with n : ?x ≠ ?x |- _ => destruct (n eq_refl) end).
  all: do 3 eexists; (split; [reflexivity|]); cbv zeta; decided.
  all: count_all; repeat split; reflexivity.
Qed.

(** Whatever goes wrong between building the item and having it on the
    queue, be it marshalling or the send, is counted as an SQS send
    error: the counter of unknown errors is never incremented. *)
Theorem stage1_failures_count_as_send_errors rt r w :
  Method r = "POST" →
  counted "business.pipeline.errors.unknown"
    (Service1.sendMessageHandler rt r w).2 = 0%nat
  ∧ match (Service1.sendMessageHandler rt r w).1.1 with
    | MarshalFailed _ _ | SendFailed _ _ =>
      counted "business.pipeline.errors.sqs.send"
        (Service1.sendMessageHandler rt r w).2 = 1%nat
    | _ =>
      counted "business.pipeline.errors.sqs.send"
        (Service1.sendMessageHandler rt r w).2 = 0%nat
    end.
Proof.
  intros Hm. destruct (stage1_counters rt r w Hm) as (o & w' & tr & -> & H).
  cbv zeta in H. destruct H as (Ho & _ & _ & _ & Hs & Hu & _).
  cbn [fst snd]. split; [exact Hu|]. by destruct o.
Qed.

Lemma stage1_failures_count_as_send_errors_witness :
  Method (Double.post "c-1" "") = "POST"
  ∧ (Service1.sendMessageHandler Double.runtime (Double.post "c-1" "")
       (withFaults [true] Double.world)).1.1
    = SendFailed "c-1" Double.ingressItem
  ∧ counted "business.pipeline.errors.unknown"
      (Service1.sendMessageHandler Double.runtime (Double.post "c-1" "")
         (withFaults [true] Double.world)).2 = 0%nat
  ∧ counted "business.pipeline.errors.sqs.send"
      (Service1.sendMessageHandler Double.runtime (Double.post "c-1" "")
         (withFaults [true] Double.world)).2 = 1%nat.
Proof.
  assert (Hp : Method (Double.post "c-1" "") = "POST") by reflexivity.
  assert (Ho : (Service1.sendMessageHandler Double.runtime (Double.post "c-1" "")
                  (withFaults [true] Double.world)).1.1
               = SendFailed "c-1" Double.ingressItem) by (vm_compute; reflexivity).
  destruct (stage1_failures_count_as_send_errors Double.runtime
              (Double.post "c-1" "") (withFaults [true] Double.world) Hp)
    as [Hu Hs].
  rewrite Ho in Hs. repeat split; assumption.
Defined.

(** A request whose send fails is counted twice in [sli.requests.total]
    and once as an error; unless an error was injected it has by then
    been counted as a success too.  A request that goes through is
    counted once, as a success or, if an error was injected, as an
    error. *)
Theorem stage1_failed_request_counted_twice rt r w :
  Method r = "POST" →
  XInjectError r ≠ "true" →
  match (Service1.sendMessageHandler rt r w).1.1 with
  | Completed _ _ =>
    counted "sli.requests.total" (Service1.sendMessageHandler rt r w).2 = 1%nat
    ∧ counted "sli.requests.success" (Service1.sendMessageHandler rt r w).2 = 1%nat
    ∧ counted "sli.requests.error" (Service1.sendMessageHandler rt r w).2 = 0%nat
  | _ =>
    counted "sli.requests.total" (Service1.sendMessageHandler rt r w).2 = 2%nat
    ∧ counted "sli.requests.success" (Service1.sendMessageHandler rt r w).2 = 1%nat
    ∧ counted "sli.requests.error" (Service1.sendMessageHandler rt r w).2 = 1%nat
  end.
Proof.
  intros Hm Hi. destruct (stage1_counters rt r w Hm) as (o & w' & tr & -> & H).
  cbv zeta in H. rewrite (bool_decide_eq_false_2 _ Hi) in H.
  destruct H as (Ho & Ht & Hs & He & _). cbn [fst snd].
  destruct o; try destruct Ho; repeat split; assumption.
Qed.

Lemma stage1_failed_request_counted_twice_witness :
  Method (Double.post "c-1" "") = "POST"
  ∧ XInjectError (Double.post "c-1" "") ≠ "true"
  ∧ (Service1.sendMessageHandler Double.runtime (Double.post "c-1" "")
       (withFaults [true] Double.world)).1.1
    = SendFailed "c-1" Double.ingressItem
  ∧ counted "sli.requests.total"
      (Service1.sendMessageHandler Double.runtime (Double.post "c-1" "")
         (withFaults [true] Double.world)).2 = 2%nat
  ∧ counted "sli.requests.success"
      (Service1.sendMessageHandler Double.runtime (Double.post "c-1" "")
         (withFaults [true] Double.world)).2 = 1%nat.
Proof.
  assert (Hp : Method (Double.post "c-1" "") = "POST") by reflexivity.
  assert (Hi : XInjectError (Double.post "c-1" "") ≠ "true") by discriminate.
  assert (Ho : (Service1.sendMessageHandler Double.runtime (Double.post "c-1" "")
                  (withFaults [true] Double.world)).1.1
               = SendFailed "c-1" Double.ingressItem) by (vm_compute; reflexivity).
  pose proof (stage1_failed_request_counted_twice Double.runtime
                (Double.post "c-1" "") (withFaults [true] Double.world) Hp Hi) as H.
  rewrite Ho in H. destruct H as (Ht & Hs & _). repeat split; assumption.
Defined.

(** ** Error injection, from the request to stage 2 *)

Lemma stage1_error_type rt r w cid m w' tr :
  Service1.sendMessageHandler rt r w = (Completed cid m, w', tr) →
  ErrorType m = if bool_decide (XInjectError r = "true") then "invalid_data" else "".
Proof.
  intros Hrun. destruct (decide (Method r = "POST")) as [Hp|Hp].
  - destruct (stage1_paths rt r w Hp) as (o & w1 & tr1 & now0 & now1 & Hrun' & Hpath).
    rewrite Hrun in Hrun'. injection Hrun' as <- <- <-. cbv zeta in Hpath.
    match type of Hpath with match json_Marshal rt ?x with _ => _ end =>
      destruct (json_Marshal rt x) as [body|] eqn:Hb end.
    + by destruct Hpath as (carrier & [] & Hs & [= -> ->]).
    + by destruct Hpath.
  - rewrite stage1_rejects in Hrun by done. discriminate Hrun.
Qed.

(** A request with the header [X-Inject-Error: true] is answered like
    any other, and its item is put on the step-1 queue with the error tag
    [invalid_data]; stage 2 then short-circuits it under the same
    correlation id, with the item as stage 1 built it, and nothing
    reaches the step-2 queue.  Any other value of the header leaves the
    item without error tag. *)
Theorem injected_error_stops_at_stage2 rt r w1 cid m1 w1' tr1 msg1 w2 :
  (∀ m b, json_Marshal rt m = Some b → json_Unmarshal rt b = Some m) →
  (∀ n, uuid_String rt n ≠ "") →
  Service1.sendMessageHandler rt r w1 = (Completed cid m1, w1', tr1) →
  Body msg1 ∈ delivered Service1.queueURL tr1 →
  if bool_decide (XInjectError r = "true") then
    ErrorType m1 = "invalid_data"
    ∧ ∃ w2' tr2,
        Service2.processStep2Message rt msg1 w2 = (ShortCircuited cid m1, w2', tr2)
        ∧ delivered Service2.outputQueueURL tr2 = []
  else ErrorType m1 = "".
Proof.
  intros Hrt Hu Hrun1 Hd1.
  pose proof (stage1_error_type _ _ _ _ _ _ _ Hrun1) as He.
  case_bool_decide; [|exact He]. split; [exact He|].
  destruct (stage1_completed _ _ _ _ _ _ _ Hrun1)
    as (Hcid & Hc1 & _ & _ & body1 & carrier1 & Hb1 & Hs1).
  destruct (delivered_one _ _ _ _ _ _ _ Hs1 Hd1) as [_ Hbody1].
  assert (Hm1 : json_Unmarshal rt (Body msg1) = Some m1)
    by (rewrite Hbody1; by apply Hrt).
  assert (Hne : cid ≠ "") by (rewrite Hcid; by apply correlationOf_nonempty).
  destruct (stage2_paths rt msg1 w2 m1 Hm1) as (o2 & w2' & tr2 & Hrun2 & Hpath).
  cbv zeta in Hpath. rewrite (bool_decide_eq_true_2 _ He) in Hpath.
  rewrite Hc1, (correlationOf_given _ _ _ Hne) in Hpath.
  destruct Hpath as [-> Hs]. exists w2', tr2. split; [exact Hrun2|].
  unfold delivered. by rewrite Hs.
Qed.

Lemma injected_error_stops_at_stage2_witness :
  (Double.stage1 (Double.post "c-1" "true")).1.1
  = Completed "c-1" (set_ErrorType "invalid_data" Double.ingressItem)
  ∧ delivered Service1.queueURL (Double.stage1 (Double.post "c-1" "true")).2
    = ["c-1|Initial data from service1|1002000000|1024000000||1|invalid_data"]
  ∧ ∃ w2' tr2,
      Double.stage2 "c-1|Initial data from service1|1002000000|1024000000||1|invalid_data"
      = (ShortCircuited "c-1" (set_ErrorType "invalid_data" Double.ingressItem),
         w2', tr2)
      ∧ delivered Service2.outputQueueURL tr2 = [].
Proof.
  assert (Ho : (Double.stage1 (Double.post "c-1" "true")).1.1
               = Completed "c-1" (set_ErrorType "invalid_data" Double.ingressItem))
    by (vm_compute; reflexivity).
  assert (Hd : delivered Service1.queueURL (Double.stage1 (Double.post "c-1" "true")).2
               = ["c-1|Initial data from service1|1002000000|1024000000||1|invalid_data"])
    by (vm_compute; reflexivity).
  split; [exact Ho|]. split; [exact Hd|].
  refine (proj2 (injected_error_stops_at_stage2 Double.runtime
                   (Double.post "c-1" "true") Double.world _ _ _ _
                   (Double.handed "rh-1"
                      "c-1|Initial data from service1|1002000000|1024000000||1|invalid_data")
                   (Double.holding Service2.inputQueueURL
                      (Double.handed "rh-1"
                         "c-1|Initial data from service1|1002000000|1024000000||1|invalid_data"))
                   double_roundtrip double_uuid (run_eta _ _ Ho) _)).
  rewrite Hd. apply list_elem_of_here.
Defined.

(** ** Message attributes and the carrier *)

(** What stages 1 and 2 send.  A run that gets as far as the send makes
    one send, to the queue of the next stage, of the item marshalled; its
    attributes are, key by key, the entries of the carrier the tracer
    made of the context of the send span, and the correlation id of the
    handler under [correlation-id] unless that carrier has an entry of
    the name, which then takes its place; no other key is set.  A run
    that ends before sends nothing.  (The loop that copies the carrier
    stores the address of its loop variable; that variable is a new one
    in each iteration, as it is from Go 1.22 on, so every attribute keeps
    its own value.) *)
Theorem outgoing_attributes rt :
  (∀ r w,
     Method r = "POST" →
     ∃ o w' tr snd,
       Service1.sendMessageHandler rt r w = (o, w', tr)
       ∧ started "sqs.send_message.service_queue_step1" tr = [snd]
       ∧ match o with
         | Completed cid m | SendFailed cid m =>
           cid = correlationOf rt (XCorrelationID r) w
           ∧ ∃ body attrs,
               json_Marshal rt m = Some body
               ∧ sends tr
                 = [(Service1.queueURL, body, attrs,
                     match o with Completed _ _ => true | _ => false end)]
               ∧ ∀ k, attrs !! k
                      = match (tracer_Inject rt snd).1 !! k with
                        | Some v => Some v
                        | None => if bool_decide (k = "correlation-id")
                                  then Some cid else None
                        end
         | _ => sends tr = []
         end)
  ∧ (∀ msg w m,
       json_Unmarshal rt (Body msg) = Some m →
       ErrorType m ≠ "invalid_data" →
       ∃ o w' tr snd,
         Service2.processStep2Message rt msg w = (o, w', tr)
         ∧ started "sqs.send" tr = [snd]
         ∧ match o with
           | Completed cid m' | SendFailed cid m' =>
             cid = correlationOf rt (CorrelationID m) w
             ∧ ∃ body attrs,
                 json_Marshal rt m' = Some body
                 ∧ sends tr
                   = [(Service2.outputQueueURL, body, attrs,
                       match o with Completed _ _ => true | _ => false end)]
                 ∧ ∀ k, attrs !! k
                        = match (tracer_Inject rt snd).1 !! k with
                          | Some v => Some v
                          | None => if bool_decide (k = "correlation-id")
                                    then Some cid else None
                          end
           | _ => sends tr = []
           end).
Proof.
  split.
  - intros r w Hm.
    destruct (stage1_handoff rt r w Hm)
      as (o & w' & tr & top & sd & now0 & now1 & Hrun & H).
    cbv zeta in H. destruct H as (_ & _ & Hsnd & _ & _ & _ & Hcalls).
    exists o, w', tr, sd. split; [exact Hrun|]. split; [exact Hsnd|].
    rewrite <- (sends_sqs_calls tr).
    match type of Hcalls with match json_Marshal rt ?x with _ => _ end =>
      destruct (json_Marshal rt x) as [body|] eqn:Hb end.
    + destruct Hcalls as (-> & -> & _).
      destruct (hd false (faults w)); (split; [reflexivity|]);
        eexists body, _; (split; [exact Hb|]); (split; [reflexivity|]);
        intros k; apply messageAttrs_at.
    + destruct Hcalls as (-> & -> & _). reflexivity.
  - intros msg w m Hm He.
    destruct (stage2_handoff rt msg w m Hm He)
      as (o & w' & tr & recv & sd & now & Hrun & H).
    cbv zeta in H. destruct H as (_ & _ & _ & Hsnd & _ & _ & _ & _ & Hcalls).
    exists o, w', tr, sd. split; [exact Hrun|]. split; [exact Hsnd|].
    rewrite <- (sends_sqs_calls tr).
    destruct (json_Marshal rt (Service2.updateForStep3 rt now m)) as [body|] eqn:Hb.
    + destruct Hcalls as (-> & ->).
      destruct (hd false (faults w)); (split; [reflexivity|]);
        eexists body, _; (split; [exact Hb|]); (split; [reflexivity|]);
        intros k; apply messageAttrs_at.
    + destruct Hcalls as (-> & ->). reflexivity.
Qed.

Lemma carrierOf_lookup msg k :
  carrierOf msg !! k
  = match MessageAttributes msg !! k with
    | Some (Some v) => Some v
    | _ => None
    end.
Proof.
  unfold carrierOf. rewrite lookup_omap.
  by destruct (MessageAttributes msg !! k) as [[v|]|].
Qed.

Lemma carrierOf_sent msg (attrs : gmap string string) :
  MessageAttributes msg = Some <$> attrs → carrierOf msg = attrs.
Proof.
  intros Ha. apply map_eq. intros k. rewrite carrierOf_lookup, Ha, lookup_fmap.
  by destruct (attrs !! k).
Qed.

(** The carrier stages 2 and 3 hand to the tracer holds exactly the
    attributes of the message that have a string value, each with that
    value: an attribute without one is left out, and nothing is added.
    The receive span is opened under what the tracer decodes from this
    carrier.  Read off a message whose attributes are those a stage
    sent, the carrier is the map that was sent. *)
Theorem consumers_read_string_attributes rt msg w m :
  json_Unmarshal rt (Body msg) = Some m →
  (∀ k, carrierOf msg !! k
        = match MessageAttributes msg !! k with
          | Some (Some v) => Some v
          | Some None | None => None
          end)
  ∧ head (spans (Service2.processStep2Message rt msg w).2)
    = Some ("sqs.receive", tracer_Extract rt (carrierOf msg))
  ∧ head (spans (Service3.processStep3Message rt msg w).2)
    = Some ("sqs.receive", tracer_Extract rt (carrierOf msg))
  ∧ (∀ attrs : gmap string string,
       MessageAttributes msg = Some <$> attrs → carrierOf msg = attrs).
Proof.
  intros Hm. split; [apply carrierOf_lookup|].
  split; [exact (proj1 (stage2_receive_span rt msg w m Hm))|].
  split; [exact (proj1 (stage3_receive_span rt msg w m Hm))|].
  apply carrierOf_sent.
Qed.

Lemma consumers_read_string_attributes_witness :
  json_Unmarshal Double.runtime
    (Body {| MessageId := Some "rh-1"; ReceiptHandle := "rh-1";
             Body := Double.freshItem;
             MessageAttributes :=
               <["x-datadog-trace-id" := Some "7"]>
                 (<["x-datadog-parent-id" := Some "9"]>
                    {["binary-only" := None]}) |})
  = Some (Double.item "c-1" "100" "200" "" 1 "")
  ∧ carrierOf {| MessageId := Some "rh-1"; ReceiptHandle := "rh-1";
                 Body := Double.freshItem;
                 MessageAttributes :=
                   <["x-datadog-trace-id" := Some "7"]>
                     (<["x-datadog-parent-id" := Some "9"]>
                        {["binary-only" := None]}) |}
    = <["x-datadog-trace-id" := "7"]> {["x-datadog-parent-id" := "9"]}
  ∧ head (spans
            (Service2.processStep2Message Double.runtime
               {| MessageId := Some "rh-1"; ReceiptHandle := "rh-1";
                  Body := Double.freshItem;
                  MessageAttributes :=
                    <["x-datadog-trace-id" := Some "7"]>
                      (<["x-datadog-parent-id" := Some "9"]>
                         {["binary-only" := None]}) |}
               Double.world).2)
    = Some ("sqs.receive", Some {| trace_id := 7; span_id := 9 |}).
Proof.
  split; [reflexivity|].
  destruct (consumers_read_string_attributes Double.runtime
              {| MessageId := Some "rh-1"; ReceiptHandle := "rh-1";
                 Body := Double.freshItem;
                 MessageAttributes :=
                   <["x-datadog-trace-id" := Some "7"]>
                     (<["x-datadog-parent-id" := Some "9"]>
                        {["binary-only" := None]}) |}
              Double.world (Double.item "c-1" "100" "200" "" 1 "") eq_refl)
    as (Hk & H2 & _ & _).
  split.
  - apply map_eq. intros k. rewrite Hk.
    destruct (decide (k = "x-datadog-trace-id")) as [->|H1]; [reflexivity|].
    destruct (decide (k = "x-datadog-parent-id")) as [->|H3]; [reflexivity|].
    destruct (decide (k = "binary-only")) as [->|H4]; [reflexivity|].
    cbn [MessageAttributes].
    rewrite !lookup_insert_ne, !lookup_singleton_ne by done. reflexivity.
  - rewrite H2. reflexivity.
Defined.

(** ** Stage 2: counters and acknowledgements *)

(** Stage 2 counts an item as processed, and as a success, before it
    tries to forward it.  So an item whose send fails is counted twice in
    [sli.processing.total], once as a success and once as an error, and
    one whose marshalling fails is counted as a success and nowhere as an
    error.  A body that does not decode is counted as an unmarshal error
    only, a short-circuited item once, as an error. *)
Theorem stage2_processing_counters rt msg w :
  ∃ o w' tr,
    Service2.processStep2Message rt msg w = (o, w', tr)
    ∧ o ≠ Rejected
    ∧ counted "sli.processing.total" tr
      = match o with Malformed => 0 | SendFailed _ _ => 2 | _ => 1 end%nat
    ∧ counted "sli.processing.success" tr
      = match o with Malformed | ShortCircuited _ _ => 0 | _ => 1 end%nat
    ∧ counted "sli.processing.error" tr
      = match o with ShortCircuited _ _ | SendFailed _ _ => 1 | _ => 0 end%nat
    ∧ counted "business.pipeline.messages.step2" tr
      = match o with Malformed | ShortCircuited _ _ => 0 | _ => 1 end%nat
    ∧ counted "business.pipeline.errors.json.unmarshal" tr
      = match o with Malformed => 1 | _ => 0 end%nat
    ∧ counted "business.pipeline.failed.step2" tr
      = match o with ShortCircuited _ _ => 1 | _ => 0 end%nat
    ∧ counted "business.pipeline.errors.sqs.send" tr
      = match o with SendFailed _ _ => 1 | _ => 0 end%nat.
Proof.
  unfold Service2.processStep2Message, receiveSpan.
  hide_strings. exec. repeat branch.
  all: do 3 eexists; (split; [reflexivity|]); cbv beta iota.
  all: (split; [discriminate|]).
  all: count_all; repeat split; reflexivity.
Qed.

(** When the delete that acknowledges an item fails, stage 2 only logs
    it.  After a forward this leaves the item on the step-2 queue and, at
    the same time, in flight on the step-1 queue, which hands it to
    stage 2 again once its visibility timeout has passed. *)
Theorem stage2_failed_ack_keeps_message rt msg w cid m' w' tr :
  Service2.processStep2Message rt msg w = (Completed cid m', w', tr) →
  deletes tr = [(Service2.inputQueueURL, ReceiptHandle msg, false)] →
  (∃ body, json_Marshal rt m' = Some body
           ∧ delivered Service2.outputQueueURL tr = [body])
  ∧ (Error, "Failed to delete processed message from step1 queue") ∈ logged tr
  ∧ inflight w' = inflight w
  ∧ (msg ∈ inflight w !!! Service2.inputQueueURL →
     msg ∈ visible (redeliver Service2.inputQueueURL w')
             !!! Service2.inputQueueURL).
Proof.
  unfold Service2.processStep2Message, receiveSpan.
  hide_strings. exec. repeat branch.
  all: intros [= <- <- <- <-]; try discriminate.
  all: intros _.
  all: split; [eexists; split; [eassumption|reflexivity]|].
  all: split; [listed|].
  all: cbn [inflight set_sqs].
  all: split; [reflexivity|].
  all: intros Hin; apply redeliver_visible; exact Hin.
Qed.

Lemma stage2_failed_ack_keeps_message_witness :
  (Service2.processStep2Message Double.runtime
     (Double.handed "rh-1" Double.freshItem)
     (withFaults [false; true]
        (Double.holding Service2.inputQueueURL
           (Double.handed "rh-1" Double.freshItem)))).1.1
  = Completed "c-1" (Double.forwarded "1033000000")
  ∧ delivered Service2.outputQueueURL
      (Service2.processStep2Message Double.runtime
         (Double.handed "rh-1" Double.freshItem)
         (withFaults [false; true]
            (Double.holding Service2.inputQueueURL
               (Double.handed "rh-1" Double.freshItem)))).2
    = ["c-1|Processed by service2: payload|100|200|1033000000|2|"]
  ∧ Double.handed "rh-1" Double.freshItem
    ∈ visible
        (redeliver Service2.inputQueueURL
           (Service2.processStep2Message Double.runtime
              (Double.handed "rh-1" Double.freshItem)
              (withFaults [false; true]
                 (Double.holding Service2.inputQueueURL
                    (Double.handed "rh-1" Double.freshItem)))).1.2)
      !!! Service2.inputQueueURL.
Proof.
  assert (Ho : (Service2.processStep2Message Double.runtime
                  (Double.handed "rh-1" Double.freshItem)
                  (withFaults [false; true]
                     (Double.holding Service2.inputQueueURL
                        (Double.handed "rh-1" Double.freshItem)))).1.1
               = Completed "c-1" (Double.forwarded "1033000000"))
    by (vm_compute; reflexivity).
  assert (Hd : deletes
                 (Service2.processStep2Message Double.runtime
                    (Double.handed "rh-1" Double.freshItem)
                    (withFaults [false; true]
                       (Double.holding Service2.inputQueueURL
                          (Double.handed "rh-1" Double.freshItem)))).2
               = [(Service2.inputQueueURL, "rh-1", false)])
    by (vm_compute; reflexivity).
  split; [exact Ho|].
  destruct (stage2_failed_ack_keeps_message Double.runtime
              (Double.handed "rh-1" Double.freshItem) _ _ _ _ _
              (run_eta _ _ Ho) Hd) as ((body & _ & Hb) & _ & _ & Hv).
  split; [vm_compute; reflexivity|].
  apply Hv. apply list_elem_of_here.
Defined.

(** ** Stage 3: acknowledgements, latency buckets and clock readings *)

(** Stage 3 drops the result of its delete.  When the delete fails the
    item is still reported as completed, nothing is logged above [Info],
    and the message stays in flight: the queue hands it out again after
    the visibility timeout and stage 3, which completes whatever decodes,
    counts the same item a second time. *)
Theorem stage3_ignores_failed_delete rt msg w m :
  json_Unmarshal rt (Body msg) = Some m →
  hd false (faults w) = true →
  (∃ cid w' tr,
     Service3.processStep3Message rt msg w = (Completed cid m, w', tr)
     ∧ deletes tr = [(Service3.queueURL, ReceiptHandle msg, false)]
     ∧ counted "business.pipeline.completed" tr = 1%nat
     ∧ (∀ lvl text, (lvl, text) ∈ logged tr → lvl = Info ∨ lvl = Debug)
     ∧ inflight w' = inflight w
     ∧ (msg ∈ inflight w !!! Service3.queueURL →
        msg ∈ visible (redeliver Service3.queueURL w') !!! Service3.queueURL))
  ∧ ∀ w2, ∃ cid2 w2' tr2,
      Service3.processStep3Message rt msg w2 = (Completed cid2 m, w2', tr2)
      ∧ counted "business.pipeline.completed" tr2 = 1%nat.
Proof.
  intros Hm Hf. split.
  2: { intros w2. unfold Service3.processStep3Message, receiveSpan. rewrite Hm.
       hide_strings. exec. repeat branch.
       all: do 3 eexists; (split; [reflexivity|]).
       all: count_all; reflexivity. }
  unfold Service3.processStep3Message, receiveSpan. rewrite Hm.
  hide_strings. exec. repeat branch.
  all: try (exfalso; rewrite Hf in *; discriminate).
  all: do 3 eexists; (split; [reflexivity|]).
  all: split; [reflexivity|].
  all: split; [count_all; reflexivity|].
  all: split;
    [intros lvl text Hin; cbv beta iota delta [logged] in Hin;
     cbn [omap list_omap] in Hin;
     repeat (apply elem_of_cons in Hin as [[= -> _]|Hin]; [auto|]);
     by apply elem_of_nil in Hin|].
  all: cbn [inflight set_sqs].
  all: split; [reflexivity|].
  all: intros Hin; apply redeliver_visible; exact Hin.
Qed.

Lemma stage3_ignores_failed_delete_witness :
  json_Unmarshal Double.runtime Double.finalItem
  = Some (Double.item "c-1" "100" "200" "300" 2 "")
  ∧ hd false (faults (withFaults [true]
                        (Double.holding Service3.queueURL
                           (Double.handed "rh-2" Double.finalItem)))) = true
  ∧ ∃ w' tr,
      Service3.processStep3Message Double.runtime
        (Double.handed "rh-2" Double.finalItem)
        (withFaults [true]
           (Double.holding Service3.queueURL
              (Double.handed "rh-2" Double.finalItem)))
      = (Completed "c-1" (Double.item "c-1" "100" "200" "300" 2 ""), w', tr)
      ∧ deletes tr = [(Service3.queueURL, "rh-2", false)]
      ∧ Double.handed "rh-2" Double.finalItem
        ∈ visible (redeliver Service3.queueURL w') !!! Service3.queueURL.
Proof.
  split; [reflexivity|]. split; [reflexivity|].
  assert (Ho : (Service3.processStep3Message Double.runtime
                  (Double.handed "rh-2" Double.finalItem)
                  (withFaults [true]
                     (Double.holding Service3.queueURL
                        (Double.handed "rh-2" Double.finalItem)))).1.1
               = Completed "c-1" (Double.item "c-1" "100" "200" "300" 2 ""))
    by (vm_compute; reflexivity).
  destruct (stage3_ignores_failed_delete Double.runtime
              (Double.handed "rh-2" Double.finalItem)
              (withFaults [true]
                 (Double.holding Service3.queueURL
                    (Double.handed "rh-2" Double.finalItem)))
              (Double.item "c-1" "100" "200" "300" 2 "") eq_refl eq_refl)
    as ((cid & w' & tr & Hrun & Hd & _ & _ & _ & Hv) & _).
  exists w', tr. split.
  - rewrite Hrun in Ho. cbn [fst] in Ho. injection Ho as ->. exact Hrun.
  - split; [exact Hd|]. apply Hv. apply list_elem_of_here.
Defined.

(** The end-to-end counters of stage 3 are nested: an item counted as
    under 300ms is counted as under 1s, an item counted in either bucket
    is counted in [sli.pipeline.total], and no item is counted more than
    once in any of them.  Every item in the total is counted as a
    success: stage 3 has no failure count. *)
Theorem stage3_latency_buckets rt msg w :
  ∃ o w' tr,
    Service3.processStep3Message rt msg w = (o, w', tr)
    ∧ (counted "sli.pipeline.under_300ms" tr ≤ counted "sli.pipeline.under_1s" tr)%nat
    ∧ (counted "sli.pipeline.under_1s" tr ≤ counted "sli.pipeline.total" tr)%nat
    ∧ (counted "sli.pipeline.total" tr ≤ 1)%nat
    ∧ counted "sli.pipeline.success" tr = counted "sli.pipeline.total" tr
    ∧ counted "sli.processing.success" tr = counted "sli.processing.total" tr.
Proof.
  unfold Service3.processStep3Message, receiveSpan.
  hide_strings. exec. repeat branch.
  all: do 3 eexists; (split; [reflexivity|]); count_all.
  all: try (repeat split; first [reflexivity | lia]).
  all: exfalso;
    repeat match goal with
           | H : (_ <=? _) = true |- _ => apply Z.leb_le in H
           | H : (_ <=? _) = false |- _ => apply Z.leb_gt in H
           end;
    unfold Second, Millisecond in *; lia.
Qed.

(** Stage 3 reads the clock twice for the end-to-end duration:
    [business.pipeline.end_to_end.duration] is the time from the start
    time to the third reading of the clock the handler takes, and
    [sli.pipeline.duration], which is also the sample the buckets test,
    the time from it to the fourth.  Each is the difference as
    [Time.Sub] computes it, cut off at the largest and the smallest
    duration.  Where neither is cut off the second exceeds the first by
    exactly the time that passed between the two readings; in any case
    it is not the smaller one unless the clock went back. *)
Theorem stage3_end_to_end_read_twice rt msg w m start :
  json_Unmarshal rt (Body msg) = Some m →
  time_Parse rt (StartTime (Pipeline m)) = Some start →
  let t2 := clock w + hd 0 (drift w) + 40 * Millisecond + hd 0 (tail (drift w))
            + hd 0 (tail (tail (drift w))) in
  let t3 := t2 + hd 0 (tail (tail (tail (drift w)))) in
  ∃ cid w' tr,
    Service3.processStep3Message rt msg w = (Completed cid m, w', tr)
    ∧ timings "business.pipeline.end_to_end.duration" tr = [time_Sub t2 start]
    ∧ timings "sli.pipeline.duration" tr = [time_Sub t3 start]
    ∧ (counted "sli.pipeline.under_300ms" tr = 1%nat
       ↔ time_Sub t3 start ≤ 300 * Millisecond)
    ∧ (minDuration ≤ t2 - start ≤ maxDuration →
       minDuration ≤ t3 - start ≤ maxDuration →
       time_Sub t3 start = time_Sub t2 start + hd 0 (tail (tail (tail (drift w)))))
    ∧ (0 ≤ hd 0 (tail (tail (tail (drift w)))) →
       time_Sub t2 start ≤ time_Sub t3 start).
Proof.
  intros Hm Hs. cbv zeta.
  assert (Hdiff :
    ∀ t d, (minDuration ≤ t - start ≤ maxDuration →
            minDuration ≤ t + d - start ≤ maxDuration →
            time_Sub (t + d) start = time_Sub t start + d)
           ∧ (0 ≤ d → time_Sub t start ≤ time_Sub (t + d) start)).
  { intros t d. unfold time_Sub, minDuration, maxDuration. lia. }
  unfold Service3.processStep3Message, receiveSpan.
  rewrite Hm, Hs.
  hide_strings. exec. repeat branch.
  all: do 3 eexists; (split; [reflexivity|]).
  all: split; [reflexivity|].
  all: split; [reflexivity|].
  all: split; [|apply Hdiff].
  all: count_all;
    repeat match goal with
           | H : (_ <=? _) = true |- _ => apply Z.leb_le in H
           | H : (_ <=? _) = false |- _ => apply Z.leb_gt in H
           end;
    split; intros; first [reflexivity | lia | discriminate].
Qed.

Lemma stage3_end_to_end_read_twice_witness :
  json_Unmarshal Double.runtime (Body (Double.handed "rh-2" Double.finalItem))
  = Some (Double.item "c-1" "100" "200" "300" 2 "")
  ∧ time_Parse Double.runtime
      (StartTime (Pipeline (Double.item "c-1" "100" "200" "300" 2 ""))) = Some 100
  ∧ ∃ cid w' tr,
      Double.stage3 Double.finalItem
      = (Completed cid (Double.item "c-1" "100" "200" "300" 2 ""), w', tr)
      ∧ timings "business.pipeline.end_to_end.duration" tr = [1043 * Millisecond - 100]
      ∧ timings "sli.pipeline.duration" tr = [1044 * Millisecond - 100].
Proof.
  split; [reflexivity|]. split; [reflexivity|].
  destruct (stage3_end_to_end_read_twice Double.runtime
              (Double.handed "rh-2" Double.finalItem)
              (Double.holding Service3.queueURL (Double.handed "rh-2" Double.finalItem))
              (Double.item "c-1" "100" "200" "300" 2 "") 100 eq_refl eq_refl)
    as (cid & w' & tr & Hrun & H1 & H2 & _).
  exists cid, w', tr. split; [exact Hrun|]. split; [exact H1|exact H2].
Defined.

(** ** The consumer loops *)

Lemma pollStep1_idle rt w :
  faults w = [] → visible w !!! Service2.inputQueueURL = [] →
  Service2.pollStep1 rt w
  = ([], w, [SqsReceive Service2.inputQueueURL (Some [])]).
Proof.
  intros Hf Hv. unfold Service2.pollStep1. rewrite bind_run.
  unfold sqs_ReceiveMessage. rewrite Hf, Hv. cbn [hd tail fst snd forRange].
  unfold mret, M_ret. cbn [fst snd app].
  unfold set_sqs. rewrite <- Hf. by destruct w.
Qed.

Lemma pollStep2_idle rt w :
  faults w = [] → visible w !!! Service3.queueURL = [] →
  Service3.pollStep2 rt w = ([], w, [SqsReceive Service3.queueURL (Some [])]).
Proof.
  intros Hf Hv. unfold Service3.pollStep2. rewrite bind_run.
  unfold sqs_ReceiveMessage. rewrite Hf, Hv. cbn [hd tail fst snd forRange].
  unfold mret, M_ret. cbn [fst snd app].
  unfold set_sqs. rewrite <- Hf. by destruct w.
Qed.

(** While its queue has nothing to deliver a consumer loop does nothing
    but poll: [n] rounds are [n] receive calls, with no log entry, no
    counter, no span and no pause of its own between them, and they
    leave the world as it was. *)
Theorem idle_consumers_only_poll rt n w :
  faults w = [] →
  (visible w !!! Service2.inputQueueURL = [] →
   Service2.consumeFromStep1 rt n w
   = ([], w, replicate n (SqsReceive Service2.inputQueueURL (Some []))))
  ∧ (visible w !!! Service3.queueURL = [] →
     Service3.consumeFromStep2 rt n w
     = ([], w, replicate n (SqsReceive Service3.queueURL (Some [])))).
Proof.
  intros Hf. split; intros Hv.
  - induction n as [|n IH]; [reflexivity|].
    cbn [Service2.consumeFromStep1 replicate].
    rewrite bind_run, (pollStep1_idle rt w Hf Hv). cbn [fst snd].
    rewrite bind_run, IH. unfold mret, M_ret. cbn [fst snd app].
    by rewrite app_nil_r.
  - induction n as [|n IH]; [reflexivity|].
    cbn [Service3.consumeFromStep2 replicate].
    rewrite bind_run, (pollStep2_idle rt w Hf Hv). cbn [fst snd].
    rewrite bind_run, IH. unfold mret, M_ret. cbn [fst snd app].
    by rewrite app_nil_r.
Qed.

Lemma idle_consumers_only_poll_witness :
  faults Double.world = []
  ∧ visible Double.world !!! Service3.queueURL = []
  ∧ Service3.consumeFromStep2 Double.runtime 3 Double.world
    = ([], Double.world, replicate 3 (SqsReceive Service3.queueURL (Some []))).
Proof.
  split; [reflexivity|]. split; [reflexivity|].
  apply (idle_consumers_only_poll Double.runtime 3 Double.world eq_refl).
  reflexivity.
Defined.

(** What stage 3 does to the world when the transport works: it moves
    the clock and draws ids, and takes the message off the messages in
    flight. *)
Lemma stage3_acknowledges rt msg w m :
  json_Unmarshal rt (Body msg) = Some m →
  faults w = [] →
  ∃ cid w' tr,
    Service3.processStep3Message rt msg w = (Completed cid m, w', tr)
    ∧ faults w' = [] ∧ visible w' = visible w
    ∧ inflight w'
      = <[Service3.queueURL :=
            filter (λ m, ReceiptHandle m ≠ ReceiptHandle msg)
              (inflight w !!! Service3.queueURL)]> (inflight w)
    ∧ deletes tr = [(Service3.queueURL, ReceiptHandle msg, true)]
    ∧ sqs_calls tr = [SqsDelete Service3.queueURL (ReceiptHandle msg) true].
Proof.
  intros Hm Hf. unfold Service3.processStep3Message. rewrite Hm.
  destruct w as [c d u s q f v i]. cbn [faults] in Hf. subst f.
  forget_strings. exec. cbn [hd tail]. repeat (branch; cbn [hd tail]).
  all: do 3 eexists; (split; [reflexivity|]).
  all: cbn [faults visible inflight set_sqs].
  all: repeat split; reflexivity.
Qed.

Lemma deletes_app t1 t2 : deletes (t1 ++ t2) = deletes t1 ++ deletes t2.
Proof. unfold deletes. apply omap_app. Qed.

(** The loop of stage 3 works its queue off in the order the transport
    hands the messages out (the queue of the model is first-in
    first-out).  With the transport working and every waiting message
    decodable, as many rounds as there are messages complete them one by
    one: the calls to the transport are, message by message, the receive
    that hands it out followed by its delete, so that each message is
    deleted before the next is received.  The rounds leave the queue with
    nothing to deliver and nothing in flight. *)
Theorem stage3_drains_its_queue rt msgs w :
  faults w = [] →
  visible w !!! Service3.queueURL = msgs →
  inflight w !!! Service3.queueURL = [] →
  Forall (λ msg, is_Some (json_Unmarshal rt (Body msg))) msgs →
  ∃ os w' tr,
    Service3.consumeFromStep2 rt (length msgs) w = (os, w', tr)
    ∧ Forall2 (λ msg o, ∃ cid m, json_Unmarshal rt (Body msg) = Some m
                                 ∧ o = Completed cid m) msgs os
    ∧ sqs_calls tr
      = (msgs ≫= λ msg, [SqsReceive Service3.queueURL (Some [msg]);
                         SqsDelete Service3.queueURL (ReceiptHandle msg) true])
    ∧ deletes tr = (λ msg, (Service3.queueURL, ReceiptHandle msg, true)) <$> msgs
    ∧ receives tr = (λ msg, (Service3.queueURL, Some [msg])) <$> msgs
    ∧ visible w' !!! Service3.queueURL = []
    ∧ inflight w' !!! Service3.queueURL = []
    ∧ faults w' = [].
Proof.
  revert w. induction msgs as [|msg msgs IH]; intros w Hf Hv Hi Hall.
  { exists [], w, []. repeat split; [constructor|assumption..]. }
  apply Forall_cons in Hall as [[m Hm] Hall].
  cbn [length Service3.consumeFromStep2]. rewrite bind_run.
  assert (Hpoll : ∃ cid w1 tr1,
             Service3.pollStep2 rt w = ([Completed cid m], w1, tr1)
             ∧ sqs_calls tr1
               = [SqsReceive Service3.queueURL (Some [msg]);
                  SqsDelete Service3.queueURL (ReceiptHandle msg) true]
             ∧ deletes tr1 = [(Service3.queueURL, ReceiptHandle msg, true)]
             ∧ receives tr1 = [(Service3.queueURL, Some [msg])]
             ∧ faults w1 = [] ∧ visible w1 !!! Service3.queueURL = msgs
             ∧ inflight w1 !!! Service3.queueURL = []).
  { assert (Hrecv : sqs_ReceiveMessage Service3.queueURL w
                     = (Some [msg],
                        set_sqs (sqs_ids w) [] (<[Service3.queueURL:=msgs]> (visible w))
                          (<[Service3.queueURL:=[msg]]> (inflight w)) w,
                        [SqsReceive Service3.queueURL (Some [msg])])).
    { unfold sqs_ReceiveMessage. rewrite Hf, Hv, Hi. reflexivity. }
    destruct (stage3_acknowledges rt msg
                (set_sqs (sqs_ids w) [] (<[Service3.queueURL:=msgs]> (visible w))
                   (<[Service3.queueURL:=[msg]]> (inflight w)) w) m Hm eq_refl)
      as (cid & w1 & tr1 & Hrun & Hf1 & Hv1 & Hi1 & Hd1 & Hc1).
    pose proof (stage3_no_receive rt msg
      (set_sqs (sqs_ids w) [] (<[Service3.queueURL:=msgs]> (visible w))
         (<[Service3.queueURL:=[msg]]> (inflight w)) w)) as Hr.
    rewrite Hrun in Hr. cbn [snd] in Hr.
    unfold Service3.pollStep2. rewrite bind_run, Hrecv. cbn [fst snd forRange].
    rewrite bind_run, Hrun. cbn [fst snd]. rewrite bind_run.
    unfold mret, M_ret. cbn [fst snd app]. rewrite app_nil_r.
    exists cid, w1, (SqsReceive Service3.queueURL (Some [msg]) :: tr1).
    split; [reflexivity|].
    split.
    { change (sqs_calls (SqsReceive Service3.queueURL (Some [msg]) :: tr1))
        with (SqsReceive Service3.queueURL (Some [msg]) :: sqs_calls tr1).
      by rewrite Hc1. }
    split; [exact Hd1|].
    split.
    { change (receives (SqsReceive Service3.queueURL (Some [msg]) :: tr1))
        with ((Service3.queueURL, Some [msg]) :: receives tr1).
      by rewrite Hr. }
    split; [exact Hf1|]. split.
    - rewrite Hv1. cbn [visible set_sqs]. apply lookup_total_insert_eq.
    - rewrite Hi1. rewrite lookup_total_insert_eq. cbn [inflight set_sqs].
      rewrite lookup_total_insert_eq. cbn [filter list_filter].
      by rewrite decide_False by (intros H; by apply H). }
  destruct Hpoll as (cid & w1 & tr1 & Hrun & Hc1 & Hd1 & Hr1 & Hf1 & Hv1 & Hi1).
  rewrite Hrun. cbn [fst snd]. rewrite bind_run.
  destruct (IH w1 Hf1 Hv1 Hi1 Hall)
    as (os & w' & tr & Hloop & Hos & Hc & Hd & Hr & Hv' & Hi' & Hf').
  rewrite Hloop. cbn [fst snd]. unfold mret, M_ret. cbn [fst snd app].
  eexists _, _, _. split; [reflexivity|]. rewrite app_nil_r.
  split; [constructor; [by exists cid, m|exact Hos]|].
  split; [rewrite sqs_calls_app, Hc1, Hc; reflexivity|].
  split; [rewrite deletes_app, Hd1, Hd; reflexivity|].
  split; [rewrite receives_app, Hr1, Hr; reflexivity|].
  by repeat split.
Qed.

Lemma stage3_drains_its_queue_witness :
  faults (Double.queued Service3.queueURL
            [Double.handed "rh-1" Double.finalItem;
             Double.handed "rh-2" Double.unstartedItem]) = []
  ∧ ∃ os w' tr,
      Service3.consumeFromStep2 Double.runtime 2
        (Double.queued Service3.queueURL
           [Double.handed "rh-1" Double.finalItem;
            Double.handed "rh-2" Double.unstartedItem])
      = (os, w', tr)
      ∧ sqs_calls tr
        = [SqsReceive Service3.queueURL
             (Some [Double.handed "rh-1" Double.finalItem]);
           SqsDelete Service3.queueURL "rh-1" true;
           SqsReceive Service3.queueURL
             (Some [Double.handed "rh-2" Double.unstartedItem]);
           SqsDelete Service3.queueURL "rh-2" true]
      ∧ visible w' !!! Service3.queueURL = []
      ∧ inflight w' !!! Service3.queueURL = [].
Proof.
  split; [reflexivity|].
  destruct (stage3_drains_its_queue Double.runtime
              [Double.handed "rh-1" Double.finalItem;
               Double.handed "rh-2" Double.unstartedItem]
              (Double.queued Service3.queueURL
                 [Double.handed "rh-1" Double.finalItem;
                  Double.handed "rh-2" Double.unstartedItem])
              eq_refl eq_refl eq_refl)
    as (os & w' & tr & Hrun & _ & Hd & _ & _ & Hv & Hi & _).
  { constructor; [eexists; reflexivity|].
    constructor; [eexists; reflexivity|]. constructor. }
  exists os, w', tr. by repeat split.
Defined.

(** ** One trace across the stages *)

(** Stage 1 works in the trace of the span the request came with and
    opens a trace of its own if it came with none; the span context it
    injects into the message belongs to that trace. *)
Lemma stage1_in_trace rt r w :
  Method r = "POST" →
  ∃ o w' tr,
    Service1.sendMessageHandler rt r w = (o, w', tr)
    ∧ let t := match ReqSpan r with Some p => trace_id p | None => span_ids w end in
      Forall (λ t', t' = t) (traces tr)
      ∧ Forall (λ s, ∃ cid ctx, s.1.2 = messageAttrs cid (tracer_Inject rt ctx).1
                                ∧ trace_id ctx = t) (sends tr).
Proof.
  intros Hm. unfold Service1.sendMessageHandler.
  rewrite (bool_decide_eq_false_2 (Method r ≠ "POST")) by (intros H; exact (H Hm)).
  forget_strings. exec. repeat branch.
  all: do 3 eexists; (split; [reflexivity|]); cbv zeta.
  all: in_trace.
Qed.

(** Stages 2 and 3 work in the trace of the context they extract from
    the message, and so does the context stage 2 injects into the
    message it forwards. *)
Lemma stage2_in_trace rt msg w ctx :
  tracer_Extract rt (carrierOf msg) = Some ctx →
  ∃ o w' tr,
    Service2.processStep2Message rt msg w = (o, w', tr)
    ∧ Forall (λ t', t' = trace_id ctx) (traces tr)
    ∧ Forall (λ s, ∃ cid c, s.1.2 = messageAttrs cid (tracer_Inject rt c).1
                            ∧ trace_id c = trace_id ctx) (sends tr).
Proof.
  intros He. unfold Service2.processStep2Message, receiveSpan. rewrite He.
  forget_strings. exec. repeat branch.
  all: do 3 eexists; (split; [reflexivity|]).
  all: first [in_trace | split; each].
Qed.

Lemma stage3_in_trace rt msg w ctx :
  tracer_Extract rt (carrierOf msg) = Some ctx →
  Forall (λ t', t' = trace_id ctx) (traces (Service3.processStep3Message rt msg w).2).
Proof.
  intros He. unfold Service3.processStep3Message, receiveSpan. rewrite He.
  forget_strings. exec. repeat branch.
  all: cbv beta iota delta [traces]; cbn [snd omap list_omap trace_id]; each.
  all: reflexivity.
Qed.

Lemma traces_app t1 t2 : traces (t1 ++ t2) = traces t1 ++ traces t2.
Proof. unfold traces. apply omap_app. Qed.

(** The tracer of the test double reads back what it wrote. *)
Lemma digits_pretty_go x :
  ∃ k, ∀ s acc,
    Double.digits (pretty_N_go x s) acc = Double.digits s (acc * 10 ^ k + x)%N.
Proof.
  induction (N.lt_wf_0 x) as [x _ IH].
  assert (x = 0 ∨ 0 < x)%N as [->|Hx] by lia.
  { exists 0%N. intros s acc. rewrite pretty_N_go_0. f_equal. rewrite N.pow_0_r. lia. }
  destruct (IH (x `div` 10)%N) as [k Hk]; [by apply N.div_lt|].
  exists (N.succ k). intros s acc. rewrite pretty_N_go_step, Hk by done.
  pose proof (N.div_mod' x 10) as Hdm.
  assert (x `mod` 10 < 10)%N as Hlt by (by apply N.mod_lt).
  rewrite N.pow_succ_r'. clear Hk IH.
  remember (x `mod` 10)%N as d eqn:Hd. remember (x `div` 10)%N as q eqn:Hq.
  clear Hd Hq.
  assert (d = 0 ∨ d = 1 ∨ d = 2 ∨ d = 3 ∨ d = 4 ∨ d = 5 ∨ d = 6 ∨ d = 7
          ∨ d = 8 ∨ d = 9)%N as Hd by lia.
  destruct Hd as [->|[->|[->|[->|[->|[->|[->|[->|[->| ->]]]]]]]]];
    cbn [Double.digits pretty_N_char];
    (match goal with
     | |- context [Ascii.N_of_ascii ?c] =>
       let n := eval vm_compute in (Ascii.N_of_ascii c) in
       change (Ascii.N_of_ascii c) with n
     end);
    cbn [N.leb N.compare Pos.compare Pos.compare_cont andb];
    f_equal; lia.
Qed.

Lemma pretty_go_nonempty x c s : pretty_N_go x (String c s) ≠ "".
Proof.
  revert c s. induction (N.lt_wf_0 x) as [x _ IH]; intros c s.
  assert (x = 0 ∨ 0 < x)%N as [->|Hx] by lia.
  - by rewrite pretty_N_go_0.
  - rewrite pretty_N_go_step by done. apply IH. by apply N.div_lt.
Qed.

Lemma number_pretty (n : nat) : Double.number (pretty n) = Some (N.of_nat n).
Proof.
  unfold pretty, pretty_nat, pretty, pretty_N.
  case_decide as Hn; [by rewrite Hn|].
  destruct (digits_pretty_go (N.of_nat n)) as [k Hk].
  unfold Double.number.
  destruct (pretty_N_go (N.of_nat n) "") eqn:Hs.
  - rewrite pretty_N_go_step in Hs by lia. by apply pretty_go_nonempty in Hs.
  - rewrite <- Hs, Hk. reflexivity.
Qed.

Lemma double_tracer_round_trip cid ctx :
  tracer_Extract Double.runtime
    (messageAttrs cid (tracer_Inject Double.runtime ctx).1) = Some ctx.
Proof.
  cbn [tracer_Extract tracer_Inject Double.runtime Double.inject fst].
  unfold Double.extract, messageAttrs.
  rewrite (lookup_union_Some_l _ _ "x-datadog-trace-id" (pretty (trace_id ctx)))
    by apply lookup_insert_eq.
  rewrite (lookup_union_Some_l _ _ "x-datadog-parent-id" (pretty (span_id ctx)))
    by (rewrite lookup_insert_ne by done; apply lookup_singleton_eq).
  rewrite !number_pretty, !Nat2N.id. by destruct ctx.
Qed.

(** With a tracer that reads back, from the attributes a stage sends,
    a context of the trace it wrote into them, the spans of all three
    stages lie in one trace: the one the request to stage 1 came in, or
    the one stage 1 opened for it.  It is enough that the message given
    to a stage carries the attributes of a message the stage before it
    sent. *)
Theorem one_trace_across_stages rt r w1 msg1 w2 msg2 w3 :
  (∀ cid ctx, ∃ ctx',
      tracer_Extract rt (messageAttrs cid (tracer_Inject rt ctx).1) = Some ctx'
      ∧ trace_id ctx' = trace_id ctx) →
  Method r = "POST" →
  (∃ s, s ∈ sends (Service1.sendMessageHandler rt r w1).2
        ∧ MessageAttributes msg1 = Some <$> s.1.2) →
  (∃ s, s ∈ sends (Service2.processStep2Message rt msg1 w2).2
        ∧ MessageAttributes msg2 = Some <$> s.1.2) →
  Forall (λ t, t = match ReqSpan r with
                   | Some p => trace_id p
                   | None => span_ids w1
                   end)
    (traces ((Service1.sendMessageHandler rt r w1).2
             ++ (Service2.processStep2Message rt msg1 w2).2
             ++ (Service3.processStep3Message rt msg2 w3).2)).
Proof.
  intros Hrt Hm (s1 & Hs1 & Ha1) (s2 & Hs2 & Ha2).
  destruct (stage1_in_trace rt r w1 Hm) as (o1 & w1' & tr1 & Hrun1 & Ht1 & Hc1).
  rewrite Hrun1 in Hs1 |- *. cbn [snd] in Hs1 |- *.
  set (t := match ReqSpan r with Some p => trace_id p | None => span_ids w1 end) in *.
  rewrite Forall_forall in Hc1. destruct (Hc1 s1 Hs1) as (cid1 & c1 & Hattr1 & Hc1t).
  destruct (Hrt cid1 c1) as (c1' & He1 & Hc1').
  rewrite Hattr1 in Ha1. apply carrierOf_sent in Ha1. rewrite <- Ha1 in He1.
  destruct (stage2_in_trace rt msg1 w2 c1' He1) as (o2 & w2' & tr2 & Hrun2 & Ht2 & Hc2).
  rewrite Hrun2 in Hs2 |- *. cbn [snd] in Hs2 |- *.
  rewrite Forall_forall in Hc2. destruct (Hc2 s2 Hs2) as (cid2 & c2 & Hattr2 & Hc2t).
  destruct (Hrt cid2 c2) as (c2' & He2 & Hc2').
  rewrite Hattr2 in Ha2. apply carrierOf_sent in Ha2. rewrite <- Ha2 in He2.
  pose proof (stage3_in_trace rt msg2 w3 c2' He2) as Ht3.
  rewrite !traces_app. rewrite !Forall_app. split; [exact Ht1|]. split.
  - eapply Forall_impl; [exact Ht2|]. intros t' ->. cbn beta. congruence.
  - eapply Forall_impl; [exact Ht3|]. intros t' ->. cbn beta. congruence.
Qed.

Lemma one_trace_across_stages_witness :
  Method {| Method := "POST"; XCorrelationID := "c-1"; XInjectError := "";
            ReqSpan := Some {| trace_id := 7; span_id := 9 |} |} = "POST"
  ∧ Forall (λ t, t = 7%nat)
      (traces
         ((Service1.sendMessageHandler Double.runtime
             {| Method := "POST"; XCorrelationID := "c-1"; XInjectError := "";
                ReqSpan := Some {| trace_id := 7; span_id := 9 |} |}
             Double.world).2
          ++ (Service2.processStep2Message Double.runtime
                (Double.carrying "rh-1" Double.ingressBody
                   (messageAttrs "c-1"
                      (Double.inject {| trace_id := 7; span_id := 3 |}).1))
                (Double.holding Service2.inputQueueURL
                   (Double.carrying "rh-1" Double.ingressBody
                      (messageAttrs "c-1"
                         (Double.inject {| trace_id := 7; span_id := 3 |}).1)))).2
          ++ (Service3.processStep3Message Double.runtime
                (Double.carrying "rh-2" Double.relayedBody
                   (messageAttrs "c-1"
                      (Double.inject {| trace_id := 7; span_id := 1 |}).1))
                (Double.holding Service3.queueURL
                   (Double.carrying "rh-2" Double.relayedBody
                      (messageAttrs "c-1"
                         (Double.inject {| trace_id := 7; span_id := 1 |}).1)))).2)).
Proof.
  split; [reflexivity|].
  apply (one_trace_across_stages Double.runtime
           {| Method := "POST"; XCorrelationID := "c-1"; XInjectError := "";
              ReqSpan := Some {| trace_id := 7; span_id := 9 |} |}
           Double.world).
  - intros cid ctx. exists ctx. split; [apply double_tracer_round_trip|reflexivity].
  - reflexivity.
  - exists (Service1.queueURL, Double.ingressBody,
            messageAttrs "c-1" (Double.inject {| trace_id := 7; span_id := 3 |}).1,
            true).
    split; [|reflexivity].
    assert (sends (Service1.sendMessageHandler Double.runtime
                     {| Method := "POST"; XCorrelationID := "c-1"; XInjectError := "";
                        ReqSpan := Some {| trace_id := 7; span_id := 9 |} |}
                     Double.world).2
            = [(Service1.queueURL, Double.ingressBody,
                messageAttrs "c-1" (Double.inject {| trace_id := 7; span_id := 3 |}).1,
                true)]) as -> by (vm_compute; reflexivity).
    apply list_elem_of_here.
  - exists (Service2.outputQueueURL, Double.relayedBody,
            messageAttrs "c-1" (Double.inject {| trace_id := 7; span_id := 1 |}).1,
            true).
    split; [|reflexivity].
    assert (sends (Service2.processStep2Message Double.runtime
                     (Double.carrying "rh-1" Double.ingressBody
                        (messageAttrs "c-1"
                           (Double.inject {| trace_id := 7; span_id := 3 |}).1))
                     (Double.holding Service2.inputQueueURL
                        (Double.carrying "rh-1" Double.ingressBody
                           (messageAttrs "c-1"
                              (Double.inject {| trace_id := 7; span_id := 3 |}).1)))).2
            = [(Service2.outputQueueURL, Double.relayedBody,
                messageAttrs "c-1" (Double.inject {| trace_id := 7; span_id := 1 |}).1,
                true)]) as -> by (vm_compute; reflexivity).
    apply list_elem_of_here.
Defined.

(** ** The health endpoints *)

(** The health endpoint of each service answers every request, whatever
    its method, with status 200 and the correlation id the request came
    with, or a fresh one if it came with none.  It counts the request as
    a success, starts one span under the span of the request, and asks
    nothing of the transport. *)
Theorem health_endpoints_echo_the_correlation_id rt r w :
  (∃ w' tr,
     Service1.homeHandler rt r w = (tt, w', tr)
     ∧ replies tr
       = [(200, [("message", "Service1 - Pipeline Entry Point");
                 ("correlation_id", correlationOf rt (XCorrelationID r) w);
                 ("service", "service1")])]
     ∧ counters tr = ["sli.requests.total"; "sli.requests.success"]
     ∧ spans tr = [("http.request", ReqSpan r)]
     ∧ sqs_calls tr = [])
  ∧ (∃ w' tr,
       Service2.homeHandler rt r w = (tt, w', tr)
       ∧ replies tr
         = [(200, [("message", "Service2 - Pipeline Step2 Processor");
                   ("correlation_id", correlationOf rt (XCorrelationID r) w);
                   ("service", "service2")])]
       ∧ counters tr = ["sli.requests.total"; "sli.requests.success"]
       ∧ spans tr = [("http.request", ReqSpan r)]
       ∧ sqs_calls tr = [])
  ∧ (∃ w' tr,
       Service3.homeHandler rt r w = (tt, w', tr)
       ∧ replies tr
         = [(200, [("message", "Service3 - Pipeline Final Step");
                   ("correlation_id", correlationOf rt (XCorrelationID r) w);
                   ("service", "service3")])]
       ∧ counters tr = ["sli.requests.total"; "sli.requests.success"]
       ∧ spans tr = [("http.request", ReqSpan r)]
       ∧ sqs_calls tr = []).
Proof.
  unfold Service1.homeHandler, Service2.homeHandler, Service3.homeHandler,
    correlationOf.
  exec. destruct (bool_decide (XCorrelationID r = "")); exec.
  all: repeat split; do 2 eexists; repeat split; reflexivity.
Qed.

(** ** Start-up *)

(** A service listens if and only if both the metrics client and the
    AWS configuration are at hand; that is also when, and only when,
    services 2 and 3 start their consumer loop.  Service 1 has none.
    Whether the log file could be opened plays no part. *)
Theorem services_listen_iff_ready b :
  let ready := statsdStarts b && awsConfigLoads b in
  ((∃ addr, Listen addr ∈ (Service1.main b).1) ↔ ready = true)
  ∧ ((∃ addr, Listen addr ∈ (Service2.main b).1) ↔ ready = true)
  ∧ ((∃ addr, Listen addr ∈ (Service3.main b).1) ↔ ready = true)
  ∧ (Consume ∉ (Service1.main b).1)
  ∧ (Consume ∈ (Service2.main b).1 ↔ ready = true)
  ∧ (Consume ∈ (Service3.main b).1 ↔ ready = true).
Proof.
  destruct b as [shard port lo lc so sc aws ret].
  destruct lo, lc, so, sc, aws, ret; boot.
  all: repeat split.
  all: try (intros _; reflexivity).
  all: try (intros H; discriminate H).
  all: try (intros _; first [present | eexists; present]).
  all: try (intros [addr H]; exfalso; absent H).
  all: intros H; exfalso; absent H.
Qed.

(** When the AWS configuration cannot be loaded, services 1 and 2 exit
    through [log.Fatal], which runs no deferred call: the metrics client
    they have opened is not closed and the tracer is not stopped.
    Service 3 panics instead, and a panic does run the deferred calls:
    it closes the metrics client, then the log file if it has one, and
    stops the tracer last. *)
Theorem config_failure_cleanup b :
  statsdStarts b = true →
  awsConfigLoads b = false →
  ((Service1.main b).2 = Exit1
   ∧ StatsdOpen ∈ (Service1.main b).1
   ∧ (StatsdClose ∉ (Service1.main b).1) ∧ (LogFileClose ∉ (Service1.main b).1)
   ∧ (TracerStop ∉ (Service1.main b).1))
  ∧ ((Service2.main b).2 = Exit1
     ∧ StatsdOpen ∈ (Service2.main b).1
     ∧ (StatsdClose ∉ (Service2.main b).1) ∧ (LogFileClose ∉ (Service2.main b).1)
     ∧ (TracerStop ∉ (Service2.main b).1))
  ∧ ((Service3.main b).2 = Panicked
     ∧ ∃ pre, (Service3.main b).1
              = pre ++ [StatsdOpen; StatsdClose]
                ++ (if logFileOpens b then [LogFileClose] else [])
                ++ [TracerStop]).
Proof.
  destruct b as [shard port lo lc so sc aws ret].
  cbn [statsdStarts awsConfigLoads]. intros -> ->.
  destruct lo, lc, sc, ret; boot.
  all: repeat split.
  all: try present.
  all: try (intros H; exfalso; absent H).
  all: eexists; cbn [app]; try reflexivity.
  all: match goal with
       | |- ?a :: ?b :: ?l = _ => change (a :: b :: l) with ([a; b] ++ l)
       end; reflexivity.
Qed.

Lemma config_failure_cleanup_witness :
  statsdStarts (Double.boot "shard-a" true true false true) = true
  ∧ awsConfigLoads (Double.boot "shard-a" true true false true) = false
  ∧ Service2.main (Double.boot "shard-a" true true false true)
    = ([TracerStart "service2" [("shard", "shard-a"); ("port", "8081")];
        LogToFile "service2-shard-a.log"; StatsdOpen;
        Fatal (Some "Failed to load AWS configuration")], Exit1)
  ∧ (StatsdClose ∉ (Service2.main (Double.boot "shard-a" true true false true)).1)
  ∧ (Service3.main (Double.boot "shard-a" true true false true)).2 = Panicked.
Proof.
  split; [reflexivity|]. split; [reflexivity|]. split; [reflexivity|].
  destruct (config_failure_cleanup (Double.boot "shard-a" true true false true)
              eq_refl eq_refl) as (_ & (_ & _ & Hc & _) & (Hp & _)).
  split; [exact Hc|exact Hp].
Defined.

(** A run of [main] that comes to an end by returning or by a panic
    has closed what it opened, in the reverse order, the tracer last; a
    run that ends in [log.Fatal] ends with that entry, and one that
    serves ends with the call to listen. *)
Theorem last_call_tells_the_ending b :
  let ends_as (run : list bootEvent * ending) :=
    match run.2 with
    | Exit1 => ∃ text, last run.1 = Some (Fatal text)
    | Serves => ∃ addr, last run.1 = Some (Listen addr)
    | Returned | Panicked => last run.1 = Some TracerStop
    end in
  ends_as (Service1.main b) ∧ ends_as (Service2.main b) ∧ ends_as (Service3.main b).
Proof.
  destruct b as [shard port lo lc so sc aws ret].
  destruct lo, lc, so, sc, aws, ret; boot.
  all: repeat split; cbn [last]; first [reflexivity | eexists; reflexivity].
Qed.

(** ** Shards *)




(** ** Malformed bodies at stage 2 *)

Lemma stage2_deletes_malformed_witness :
  json_Unmarshal Double.runtime (Body (Double.handed "rh-1" Double.garbage)) = None
  ∧ ∃ w' tr,
      Double.stage2 Double.garbage = (Malformed, w', tr)
      ∧ sqs_calls tr = [SqsDelete Service2.inputQueueURL "rh-1" true]
      ∧ inflight w' !!! Service2.inputQueueURL = [].
Proof.
  split; [reflexivity|].
  assert (Hi : inflight (Double.stage2 Double.garbage).1.2
               !!! Service2.inputQueueURL = []) by (vm_compute; reflexivity).
  destruct (stage2_deletes_malformed Double.runtime
              (Double.handed "rh-1" Double.garbage)
              (Double.holding Service2.inputQueueURL
                 (Double.handed "rh-1" Double.garbage)) eq_refl)
    as (w' & tr & Hrun & Hc & _).
  exists w', tr. rewrite Hrun in Hi. by repeat split.
Defined.
